(** * Aphelios damage simulator: a shallow embedding of [Damage.py]

    The development follows the Python module function by function:
    the mitigation formula, the item-stat aggregation
    ([ApheliosSimulator._calculate_base_stats] and its [lru_cache]),
    the rotation engine ([rotate_weapon], [use_ammo], [simulate_attack],
    [simulate_ability], [calculate_dps]) and the final ranking of
    [optimize_aphelios_build].

    Conventions.
    - Python floats are exact rationals ([Q]); binary64 rounding is not
      part of the model.  The few places where the source relies on a
      rounding coincidence are checked on binary64 in [Module Binary64].
    - A Python exception is a [Raise] result; a [while] loop runs on fuel
      and [None] means that the fuel ran out.
    - The hidden state of Python's [random] module is a stream of draws
      carried next to the simulator fields.
    - The stats dict is shared between the cache and the simulator that
      received it: where that matters, dict objects sit in a heap and
      are named by references ([simulator_object], [in_place]); the
      tick functions themselves work on the dereferenced [self]. *)

From Stdlib Require Import QArith Qminmax Qround Lqa ZArith Lia.
From Stdlib Require Import List String Bool Permutation Sorted Uint63 Floats.
Import ListNotations.

Set Warnings "-inexact-float,-notation-for-abbreviation".

Open Scope Q_scope.

(* ================================================================== *)
(** * Part I.  The embedding                                            *)
(* ================================================================== *)

(** ** Python values and built-ins *)

Module Py.

Inductive exn : Set :=
| KeyError
| ValueError
| TypeError
| ZeroDivisionError.

Inductive result (A : Type) : Type :=
| Ok (a : A)
| Raise (e : exn).
Arguments Ok {A} a.
Arguments Raise {A} e.

Definition bind {A B} (r : result A) (k : A -> result B) : result B :=
  match r with
  | Ok a => k a
  | Raise e => Raise e
  end.

(** [a < b] on floats. *)
Definition ltb (a b : Q) : bool := negb (Qle_bool b a).

(** [max(a, b)]: the first argument unless the second is greater. *)
Definition max (a b : Q) : Q := if ltb a b then b else a.

(** [min(a, b)]: the first argument unless the second is smaller. *)
Definition min (a b : Q) : Q := if ltb b a then b else a.

(** [int(x)] truncates towards zero. *)
Definition int (x : Q) : Z := Z.quot (Qnum x) (Zpos (Qden x)).

(** The values an item or weapon table holds. *)
Inductive value : Type :=
| VNum (q : Q)
| VBool (b : bool)
| VTuple (xs : list Q)
| VStr (s : string).

(** [float(v)].  [bool] is a subclass of [int]; a tuple is a
    [TypeError]; the strings of the tables are names, never numerals,
    so [float] on them is a [ValueError]. *)
Definition float (v : value) : result Q :=
  match v with
  | VNum q => Ok q
  | VBool true => Ok 1
  | VBool false => Ok 0
  | VTuple _ => Raise TypeError
  | VStr _ => Raise ValueError
  end.

(** [isinstance(v, (int, float))]. *)
Definition is_number (v : value) : bool :=
  match v with
  | VNum _ | VBool _ => true
  | _ => false
  end.

(** A [dict] with string keys, in insertion order. *)
Definition dict (V : Type) : Type := list (string * V).

Fixpoint get {V} (d : dict V) (k : string) : option V :=
  match d with
  | [] => None
  | (k', v) :: d' => if String.eqb k k' then Some v else get d' k
  end.

(** [d.get(k, dflt)] *)
Definition get_default {V} (d : dict V) (k : string) (dflt : V) : V :=
  match get d k with
  | Some v => v
  | None => dflt
  end.

(** [d[k]] *)
Definition item {V} (d : dict V) (k : string) : result V :=
  match get d k with
  | Some v => Ok v
  | None => Raise KeyError
  end.

(** [d[k] = v]: overwrite in place, or append a new key. *)
Fixpoint set {V} (d : dict V) (k : string) (v : V) : dict V :=
  match d with
  | [] => [(k, v)]
  | (k', v') :: d' =>
      if String.eqb k k' then (k', v) :: d' else (k', v') :: set d' k v
  end.

(** [k in d] *)
Definition mem {V} (d : dict V) (k : string) : bool :=
  match get d k with
  | Some _ => true
  | None => false
  end.

(** [sum(xs)] *)
Definition sum (xs : list Q) : Q := fold_left Qplus xs 0.

(** A [set] of floats: [add] is idempotent. *)
Definition fset : Type := list Q.

Definition fset_add (x : Q) (s : fset) : fset :=
  if existsb (Qeq_bool x) s then s else x :: s.

End Py.

Notation result := Py.result.
Notation Ok := Py.Ok.
Notation Raise := Py.Raise.

Declare Scope py_scope.
Notation "x <- c ;; k" := (Py.bind c (fun x => k))
  (at level 61, c at next level, right associativity) : py_scope.
Notation "' pat <- c ;; k" := (Py.bind c (fun x => match x with pat => k end))
  (at level 61, pat pattern, c at next level, right associativity) : py_scope.
Open Scope py_scope.

(** ** Module constants *)

Definition BASE_AD_LEVEL18 : Q := 94.1.
Definition BASE_AS : Q := 0.64.
Definition DEFAULT_CRIT_DAMAGE : Q := 1.75.
Definition BASE_HEALTH : Q := 2334.
Definition BASE_MANA : Q := 1062.
Definition BASE_ARMOR : Q := 97.4.
Definition BASE_MR : Q := 52.1.
Definition BASE_MOVE_SPEED : Q := 325.

Definition ABILITY_CAST_TIME : Q := 0.5.
Definition ABILITY_COOLDOWN : Q := 3.0.

(** ** [apply_physical_mitigation] *)

Definition apply_physical_mitigation
  (damage enemy_armor armor_pen lethality : Q) : Q :=
  let flat_pen := lethality * (0.6 + 0.4) in
  let armor_after_flat := Py.max 0 (enemy_armor - flat_pen) in
  let final_armor := Py.max 0 (armor_after_flat * (1 - armor_pen)) in
  let multiplier :=
    if Qle_bool 0 final_armor
    then 100 / (100 + final_armor)
    else 2 - 100 / (100 - final_armor) in
  damage * multiplier.

(** The armor that is left after both penetrations, in the words of the
    specification: lethality counts at 1.0x, each subtraction is
    floored at 0. *)
Definition spec_resulting_armor (enemy_armor armor_pen lethality : Q) : Q :=
  Qmax 0 (Qmax 0 (enemy_armor - 1 * lethality) * (1 - armor_pen)).

(** The multiplier the header comment of the source documents. *)
Definition documented_multiplier (armor : Q) : Q :=
  if Qle_bool 0 armor then 100 / (100 + armor) else 2 - 100 / (100 - armor).

(** ** Static tables *)

Inductive weapon_name : Set :=
| Calibrum
| Severum
| Gravitum
| Infernum
| Crescendum.

Definition weapon_name_eqb (a b : weapon_name) : bool :=
  match a, b with
  | Calibrum, Calibrum | Severum, Severum | Gravitum, Gravitum
  | Infernum, Infernum | Crescendum, Crescendum => true
  | _, _ => false
  end.

Record MoonstoneWeapon : Type := {
  name : weapon_name;
  moonlight : Z;
  base_damage_mod : Q * Q;
  on_hit_effect : Py.dict Py.value;
  ability_effect : Py.dict Q
}.

Open Scope string_scope.
Open Scope Q_scope.

Definition WEAPONS (w : weapon_name) : MoonstoneWeapon :=
  match w with
  | Calibrum =>
      {| name := Calibrum; moonlight := 50; base_damage_mod := (1.0, 0.2);
         on_hit_effect := [("range", Py.VNum 650); ("mark", Py.VBool true)];
         ability_effect := [("execute", 0.10)] |}
  | Severum =>
      {| name := Severum; moonlight := 50; base_damage_mod := (0.9, 0.0);
         on_hit_effect := [("heal", Py.VNum 0.03); ("shield_convert", Py.VNum 0.06)];
         ability_effect := [("lifesteal_boost", 0.25)] |}
  | Gravitum =>
      {| name := Gravitum; moonlight := 50; base_damage_mod := (1.1, 0.0);
         on_hit_effect := [("slow", Py.VNum 0.3)];
         ability_effect := [("root", 1.0)] |}
  | Infernum =>
      {| name := Infernum; moonlight := 50; base_damage_mod := (0.85, 0.15);
         on_hit_effect := [("aoe", Py.VNum 0.75)];
         ability_effect := [("splash", 0.4)] |}
  | Crescendum =>
      {| name := Crescendum; moonlight := 50; base_damage_mod := (0.5, 0.02);
         on_hit_effect := [("chakram_gen", Py.VNum 1)];
         ability_effect := [("chakram_amp", 0.1)] |}
  end.

(** The keys of [WEAPONS], in insertion order. *)
Definition WEAPON_NAMES : list weapon_name :=
  [Calibrum; Severum; Gravitum; Infernum; Crescendum].

Definition item_dict : Type := Py.dict Py.value.
Definition stats_dict : Type := Py.dict Q.

Definition num (q : Q) : Py.value := Py.VNum q.
Definition str (s : string) : Py.value := Py.VStr s.
Definition pair_of (a b : Q) : Py.value := Py.VTuple [a; b].

Definition ITEMS : Py.dict item_dict :=
  [ ("Muramana",
      [("AD", num 49.29); ("Ability Haste", num 31.0); ("Mana", num 860.0);
       ("name", str "Muramana")]);
    ("Axiom Arc",
      [("AD", num 55.0); ("Ability Haste", num 20.0); ("Lethality", num 18.0);
       ("UltimateRefund", num 0.15); ("name", str "Axiom Arc")]);
    ("Black Cleaver",
      [("AD", num 40.0); ("Ability Haste", num 20.0); ("Health", num 400.0);
       ("ArmorPen", num 0.30); ("name", str "Black Cleaver")]);
    ("Blade of the Ruined King",
      [("AD", num 40.0); ("Attack Speed", num 0.25); ("Lifesteal", num 0.10);
       ("OnHitCurrentHealth", num 0.08); ("name", str "Blade of the Ruined King")]);
    ("Bloodthirster",
      [("AD", num 80.0); ("Lifesteal", num 0.15); ("Shield", pair_of 165.0 315.0);
       ("name", str "Bloodthirster")]);
    ("Death's Dance",
      [("AD", num 60.0); ("Ability Haste", num 15.0); ("Armor", num 50.0);
       ("DamageReduction", num 0.30); ("name", str "Death's Dance")]);
    ("Eclipse",
      [("AD", num 60.0); ("Ability Haste", num 15.0); ("MaxHealthDamage", num 0.06);
       ("Shield", pair_of 160.0 80.0); ("name", str "Eclipse")]);
    ("Essence Reaver",
      [("AD", num 60.0); ("Ability Haste", num 15.0); ("Crit Chance", num 0.25);
       ("ManaRestore", num 15.0); ("name", str "Essence Reaver")]);
    ("Guinsoo's Rageblade",
      [("AD", num 30.0); ("Ability Power", num 30.0); ("Attack Speed", num 0.25);
       ("OnHitMagicDamage", num 30.0); ("name", str "Guinsoo's Rageblade")]);
    ("Hubris",
      [("AD", num 60.0); ("Ability Haste", num 10.0); ("Lethality", num 18.0);
       ("BonusADPerStack", num 15.0); ("name", str "Hubris")]);
    ("Hullbreaker",
      [("AD", num 40.0); ("Health", num 500.0); ("MoveSpeed", num 0.04);
       ("BonusArmorMR", pair_of 70.0 130.0); ("name", str "Hullbreaker")]);
    ("Immortal Shieldbow",
      [("AD", num 55.0); ("Crit Chance", num 0.25); ("Shield", pair_of 400.0 700.0);
       ("Lifesteal", num 0.07); ("name", str "Immortal Shieldbow")]);
    ("Infinity Edge",
      [("AD", num 70.0); ("Crit Chance", num 0.25); ("Crit Damage", num 0.40);
       ("name", str "Infinity Edge")]);
    ("Kraken Slayer",
      [("AD", num 45.0); ("Attack Speed", num 0.40); ("MoveSpeed", num 0.04);
       ("BonusPhysicalDamage", pair_of 150.0 200.0); ("name", str "Kraken Slayer")]);
    ("Lord Dominik's Regards",
      [("AD", num 35.0); ("ArmorPen", num 0.40); ("Crit Chance", num 0.25);
       ("name", str "Lord Dominik's Regards")]);
    ("Maw of Malmortius",
      [("AD", num 60.0); ("Ability Haste", num 15.0); ("MR", num 40.0);
       ("Shield", pair_of 200.0 150.0); ("Omnivamp", num 0.10);
       ("name", str "Maw of Malmortius")]);
    ("Mercurial Scimitar",
      [("AD", num 40.0); ("MR", num 40.0); ("Lifesteal", num 0.10);
       ("name", str "Mercurial Scimitar")]);
    ("Mortal Reminder",
      [("AD", num 35.0); ("Armor Pen", num 0.35); ("Crit Chance", num 0.25);
       ("GrievousWounds", Py.VBool true); ("name", str "Mortal Reminder")]);
    ("Nashor's Tooth",
      [("Ability Power", num 80.0); ("Ability Haste", num 15.0);
       ("Attack Speed", num 0.50); ("OnHitMagicDamage", num 15.0);
       ("name", str "Nashor's Tooth")]);
    ("Navori Flickerblade",
      [("Attack Speed", num 0.40); ("Crit Chance", num 0.25); ("MoveSpeed", num 0.04);
       ("CooldownReduction", num 0.15); ("name", str "Navori Flickerblade")]);
    ("Opportunity",
      [("AD", num 55.0); ("Lethality", num 15.0);
       ("MoveSpeedOutOfCombat", pair_of 11.0 7.0); ("name", str "Opportunity")]);
    ("Phantom Dancer",
      [("Attack Speed", num 0.60); ("Crit Chance", num 0.25); ("MoveSpeed", num 0.08);
       ("name", str "Phantom Dancer")]);
    ("Rapid Firecannon",
      [("Attack Speed", num 0.35); ("Crit Chance", num 0.25); ("MoveSpeed", num 0.04);
       ("name", str "Rapid Firecannon")]);
    ("Ravenous Hydra",
      [("AD", num 65.0); ("Ability Haste", num 15.0); ("Lifesteal", num 0.12);
       ("Cleave", num 0.40); ("name", str "Ravenous Hydra")]);
    ("Runaan's Hurricane",
      [("Attack Speed", num 0.40); ("Crit Chance", num 0.25); ("MoveSpeed", num 0.04);
       ("name", str "Runaan's Hurricane")]);
    ("Serpent's Fang",
      [("AD", num 55.0); ("Lethality", num 15.0); ("ShieldReduction", num 0.50);
       ("name", str "Serpent's Fang")]);
    ("Serylda's Grudge",
      [("AD", num 45.0); ("Ability Haste", num 20.0); ("ArmorPen", num 0.30);
       ("Slow", num 0.30); ("name", str "Serylda's Grudge")]);
    ("Statikk Shiv",
      [("AD", num 45.0); ("Attack Speed", num 0.30); ("MoveSpeed", num 0.04);
       ("MagicDamage", num 60.0); ("name", str "Statikk Shiv")]);
    ("Sterak's Gage",
      [("Health", num 400.0); ("Tenacity", num 0.20); ("BonusAD", num 0.45);
       ("name", str "Sterak's Gage")]);
    ("Sundered Sky",
      [("AD", num 40.0); ("Ability Haste", num 10.0); ("Health", num 400.0);
       ("CritDamage", num 1.75); ("HealMissingHealth", num 0.06);
       ("name", str "Sundered Sky")]);
    ("Terminus",
      [("AD", num 30.0); ("Attack Speed", num 0.35); ("OnHitMagicDamage", num 30.0);
       ("ArmorMRPerStack", Py.VTuple [6.0; 7.0; 8.0]);
       ("ArmorPenMagicPenPerStack", num 0.10); ("name", str "Terminus")]);
    ("The Collector",
      [("AD", num 50.0); ("Lethality", num 10.0); ("Crit Chance", num 0.25);
       ("Execute", num 0.05); ("name", str "The Collector")]);
    ("Trinity Force",
      [("AD", num 36.0); ("Ability Haste", num 15.0); ("Attack Speed", num 0.30);
       ("Health", num 333.0); ("SpellbladeDamage", num 2.0);
       ("name", str "Trinity Force")]);
    ("Voltaic Cyclosword",
      [("AD", num 55.0); ("Ability Haste", num 10.0); ("Lethality", num 18.0);
       ("Slow", num 0.99); ("BonusPhysicalDamage", num 100.0);
       ("name", str "Voltaic Cyclosword")]);
    ("Wit's End",
      [("MR", num 45.0); ("Attack Speed", num 0.50); ("Tenacity", num 0.20);
       ("OnHitMagicDamage", num 45.0); ("name", str "Wit's End")]);
    ("Youmuu's Ghostblade",
      [("AD", num 55.0); ("Lethality", num 18.0);
       ("MoveSpeedOutOfCombat", pair_of 20.0 10.0);
       ("name", str "Youmuu's Ghostblade")]) ].

Record constraint_group : Type := {
  group_items : list string;
  group_max : nat
}.

Definition ITEM_CONSTRAINTS : Py.dict constraint_group :=
  [ ("last_whisper",
      {| group_items := ["Lord Dominik's Regards"; "Serylda's Grudge"; "Mortal Reminder"];
         group_max := 1 |});
    ("lifeline",
      {| group_items := ["Immortal Shieldbow"; "Maw of Malmortius"; "Sterak's Gage"];
         group_max := 1 |}) ].

(** [item in lst] on strings. *)
Definition str_in (s : string) (l : list string) : bool :=
  existsb (String.eqb s) l.

Definition is_valid_build (combo : list string) : bool :=
  forallb
    (fun g : string * constraint_group =>
       let count := List.length (filter (fun it => str_in it (group_items (snd g))) combo) in
       negb (group_max (snd g) <? count)%nat)
    ITEM_CONSTRAINTS.

(** ** [ApheliosSimulator._calculate_base_stats] *)

(** The three accumulators of the aggregation loop. *)
Record agg : Type := {
  agg_stats : stats_dict;
  has_infinity_edge : bool;
  bonus_ad : Q
}.

Definition with_stats (a : agg) (d : stats_dict) : agg :=
  {| agg_stats := d;
     has_infinity_edge := has_infinity_edge a;
     bonus_ad := bonus_ad a |}.

Definition base_stats : stats_dict :=
  [ ("AD", BASE_AD_LEVEL18); ("AS", BASE_AS); ("Crit", 0.0);
    ("CritDmg", DEFAULT_CRIT_DAMAGE); ("Lethality", 0.0); ("ArmorPen", 0.0);
    ("MagicPen", 0.0); ("OnHit", 0.0); ("LS", 0.0); ("Omnivamp", 0.0);
    ("BonusAD", 0.0); ("AbilityHaste", 0.0); ("Bonus Range", 0.0);
    ("Health", BASE_HEALTH); ("Armor", BASE_ARMOR); ("MR", BASE_MR);
    ("Mana", BASE_MANA); ("MoveSpeed", BASE_MOVE_SPEED) ].

(** [value == "Infinity Edge"] *)
Definition is_infinity_edge (v : Py.value) : bool :=
  match v with
  | Py.VStr s => String.eqb s "Infinity Edge"
  | _ => false
  end.

(** One pass of the inner loop body, for the entry [stat: value]. *)
Definition aggregate_stat (a : agg) (entry : string * Py.value) : result agg :=
  let '(stat, value) := entry in
  if String.eqb stat "name" then
    Ok (if is_infinity_edge value
        then {| agg_stats := agg_stats a; has_infinity_edge := true;
                bonus_ad := bonus_ad a |}
        else a)
  else if String.eqb stat "Crit Chance" then
    crit <- Py.item (agg_stats a) "Crit" ;;
    v <- Py.float value ;;
    Ok (with_stats a (Py.set (agg_stats a) "Crit" (crit + v)))
  else if String.eqb stat "AD" then
    v <- Py.float value ;;
    Ok {| agg_stats := agg_stats a;
          has_infinity_edge := has_infinity_edge a;
          bonus_ad := bonus_ad a + v |}
  else
    (* the [ArmorPen] branch has no [continue]: control falls through *)
    a <- (if String.eqb stat "ArmorPen" || String.eqb stat "Armor Pen" then
            cur <- Py.item (agg_stats a) "ArmorPen" ;;
            v <- Py.float value ;;
            Ok (with_stats a (Py.set (agg_stats a) "ArmorPen" (Py.max cur v)))
          else Ok a) ;;
    if String.eqb stat "Lethality" then
      cur <- Py.item (agg_stats a) "Lethality" ;;
      v <- Py.float value ;;
      Ok (with_stats a (Py.set (agg_stats a) "Lethality" (cur + v)))
    else
      match value with
      | Py.VTuple xs =>
          (* the elements are numbers, so only the division can fail *)
          match xs with
          | [] => Raise Py.ZeroDivisionError
          | _ =>
              Ok (with_stats a
                    (Py.set (agg_stats a) stat
                       (Py.get_default (agg_stats a) stat 0.0
                        + Py.sum xs / inject_Z (Z.of_nat (List.length xs)))))
          end
      | Py.VNum _ | Py.VBool _ =>
          (* [isinstance(value, (int, float))] also accepts a [bool] *)
          v <- Py.float value ;;
          Ok (with_stats a
                (Py.set (agg_stats a) stat
                   (Py.get_default (agg_stats a) stat 0.0 + v)))
      | Py.VStr _ => Ok a   (* a warning is printed *)
      end.

(** A [for] loop whose body may raise. *)
Fixpoint for_each {A B} (body : A -> B -> result A) (l : list B) (a : A)
  : result A :=
  match l with
  | [] => Ok a
  | x :: l' => a' <- body a x ;; for_each body l' a'
  end.

Definition aggregate_item (a : agg) (it : item_dict) : result agg :=
  for_each aggregate_stat it a.

Definition finish_stats (a : agg) : result stats_dict :=
  let stats := Py.set (agg_stats a) "BonusAD" (bonus_ad a) in
  ad <- Py.item stats "AD" ;;
  let stats := Py.set stats "AD" (ad + bonus_ad a) in
  ad <- Py.item stats "AD" ;;
  let stats := Py.set stats "AD" (ad + 68) in
  crit <- Py.item stats "Crit" ;;
  let stats := Py.set stats "Crit" (Py.min crit 1.0) in
  crit <- Py.item stats "Crit" ;;
  if has_infinity_edge a && Qle_bool 0.6 crit then
    cd <- Py.item stats "CritDmg" ;;
    Ok (Py.set stats "CritDmg" (cd + 0.4))
  else Ok stats.

(** The method reads [self.item_stats]; its [items_tuple] argument only
    feeds the cache key. *)
Definition _calculate_base_stats (self_item_stats : list item_dict)
  (items_tuple : list string) : result stats_dict :=
  let items := items_tuple in
  a <- for_each aggregate_item self_item_stats
         {| agg_stats := base_stats; has_infinity_edge := false; bonus_ad := 0.0 |} ;;
  finish_stats a.

(** ** Dict objects

    The snapshot the aggregation returns is one dict object: the cache
    keeps it, [__init__] makes it [self.stats], and the ticks update it
    in place ([self.stats["LS"] += ...]).  Dict objects live in a heap
    and are named by references; a reference is the rank of the object
    among those allocated. *)

Definition dict_ref : Type := nat.

Definition heap : Type := list stats_dict.

Definition heap_get (h : heap) (r : dict_ref) : option stats_dict :=
  nth_error h r.

(** A new object, after those that exist. *)
Definition heap_alloc (h : heap) (d : stats_dict) : dict_ref * heap :=
  (List.length h, (h ++ [d])%list).

(** An update in place of the object [r]. *)
Fixpoint heap_set (h : heap) (r : dict_ref) (d : stats_dict) : heap :=
  match h, r with
  | [], _ => []
  | _ :: h', O => d :: h'
  | x :: h', S r' => x :: heap_set h' r' d
  end.

(** ** [functools.lru_cache(maxsize=128)]

    The cache belongs to the function object, so all simulators share
    it; a key is the argument tuple [(self, items_tuple)], where [self]
    hashes and compares by identity.  An entry holds the dict object
    the call returned, not a copy of it. *)

Definition cache_key : Type := nat * list string.

Definition cache_key_eqb (a b : cache_key) : bool :=
  Nat.eqb (fst a) (fst b)
  && (Nat.eqb (List.length (snd a)) (List.length (snd b))
      && forallb (fun p => String.eqb (fst p) (snd p)) (combine (snd a) (snd b))).

Record lru_cache : Type := {
  entries : list (cache_key * dict_ref);   (* most recently used first *)
  hits : nat;
  misses : nat
}.

Definition empty_cache : lru_cache := {| entries := []; hits := 0; misses := 0 |}.

Definition maxsize : nat := 128.

Fixpoint cache_find (k : cache_key) (l : list (cache_key * dict_ref))
  : option dict_ref :=
  match l with
  | [] => None
  | (k', r) :: l' => if cache_key_eqb k k' then Some r else cache_find k l'
  end.

Definition cache_remove (k : cache_key) (l : list (cache_key * dict_ref))
  : list (cache_key * dict_ref) :=
  filter (fun e => negb (cache_key_eqb k (fst e))) l.

(** A call through the wrapper: a hit returns the stored object and
    leaves the user function alone; a miss runs it and stores the dict
    it built, unless it raised.  A full cache drops its least recently
    used entry. *)
Definition cached_call (h : heap) (c : lru_cache) (k : cache_key)
  (user_function : unit -> result stats_dict)
  : result dict_ref * heap * lru_cache :=
  match cache_find k (entries c) with
  | Some r =>
      (Ok r, h,
       {| entries := (k, r) :: cache_remove k (entries c);
          hits := S (hits c); misses := misses c |})
  | None =>
      match user_function tt with
      | Ok d =>
          let '(r, h) := heap_alloc h d in
          (Ok r, h,
           {| entries := firstn maxsize ((k, r) :: entries c);
              hits := hits c; misses := S (misses c) |})
      | Raise e =>
          (Raise e, h,
           {| entries := entries c; hits := hits c; misses := S (misses c) |})
      end
  end.

(** The decorated method, as a caller sees it. *)
Definition calculate_base_stats_cached (h : heap) (cache : lru_cache)
  (self_id : nat) (self_item_stats : list item_dict) (items_tuple : list string)
  : result dict_ref * heap * lru_cache :=
  cached_call h cache (self_id, items_tuple)
    (fun _ => _calculate_base_stats self_item_stats items_tuple).

(** ** The simulator object *)

(** The fields [crescendum_return_times] and [active_marks] are set to
    empty dicts by [__init__] and never touched again; they are left
    out.  [rng] and [rng_pos] stand for the generator behind
    [random.random()]. *)
Record ApheliosSimulator : Type := {
  weapon_queue : list weapon_name;
  main_hand : MoonstoneWeapon;
  off_hand : MoonstoneWeapon;
  item_names : list string;
  item_stats : list item_dict;
  stats : stats_dict;
  enemy_armor : Q;
  enemy_health : Q;
  time : Q;
  ability_cooldown : Q;
  weapon_ammo : weapon_name -> Z;
  chakram_stacks : Z;
  active_chakrams : Py.fset;
  rng : nat -> Q;
  rng_pos : nat
}.

Definition set_hands (s : ApheliosSimulator) (q : list weapon_name)
  (m o : MoonstoneWeapon) : ApheliosSimulator :=
  {| weapon_queue := q; main_hand := m; off_hand := o;
     item_names := item_names s; item_stats := item_stats s; stats := stats s;
     enemy_armor := enemy_armor s; enemy_health := enemy_health s;
     time := time s; ability_cooldown := ability_cooldown s;
     weapon_ammo := weapon_ammo s; chakram_stacks := chakram_stacks s;
     active_chakrams := active_chakrams s; rng := rng s; rng_pos := rng_pos s |}.

Definition set_stats (s : ApheliosSimulator) (d : stats_dict) : ApheliosSimulator :=
  {| weapon_queue := weapon_queue s; main_hand := main_hand s; off_hand := off_hand s;
     item_names := item_names s; item_stats := item_stats s; stats := d;
     enemy_armor := enemy_armor s; enemy_health := enemy_health s;
     time := time s; ability_cooldown := ability_cooldown s;
     weapon_ammo := weapon_ammo s; chakram_stacks := chakram_stacks s;
     active_chakrams := active_chakrams s; rng := rng s; rng_pos := rng_pos s |}.

Definition set_time (s : ApheliosSimulator) (t : Q) : ApheliosSimulator :=
  {| weapon_queue := weapon_queue s; main_hand := main_hand s; off_hand := off_hand s;
     item_names := item_names s; item_stats := item_stats s; stats := stats s;
     enemy_armor := enemy_armor s; enemy_health := enemy_health s;
     time := t; ability_cooldown := ability_cooldown s;
     weapon_ammo := weapon_ammo s; chakram_stacks := chakram_stacks s;
     active_chakrams := active_chakrams s; rng := rng s; rng_pos := rng_pos s |}.

Definition set_ability_cooldown (s : ApheliosSimulator) (t : Q) : ApheliosSimulator :=
  {| weapon_queue := weapon_queue s; main_hand := main_hand s; off_hand := off_hand s;
     item_names := item_names s; item_stats := item_stats s; stats := stats s;
     enemy_armor := enemy_armor s; enemy_health := enemy_health s;
     time := time s; ability_cooldown := t;
     weapon_ammo := weapon_ammo s; chakram_stacks := chakram_stacks s;
     active_chakrams := active_chakrams s; rng := rng s; rng_pos := rng_pos s |}.

Definition set_weapon_ammo (s : ApheliosSimulator) (f : weapon_name -> Z)
  : ApheliosSimulator :=
  {| weapon_queue := weapon_queue s; main_hand := main_hand s; off_hand := off_hand s;
     item_names := item_names s; item_stats := item_stats s; stats := stats s;
     enemy_armor := enemy_armor s; enemy_health := enemy_health s;
     time := time s; ability_cooldown := ability_cooldown s;
     weapon_ammo := f; chakram_stacks := chakram_stacks s;
     active_chakrams := active_chakrams s; rng := rng s; rng_pos := rng_pos s |}.

Definition set_chakram_stacks (s : ApheliosSimulator) (n : Z) : ApheliosSimulator :=
  {| weapon_queue := weapon_queue s; main_hand := main_hand s; off_hand := off_hand s;
     item_names := item_names s; item_stats := item_stats s; stats := stats s;
     enemy_armor := enemy_armor s; enemy_health := enemy_health s;
     time := time s; ability_cooldown := ability_cooldown s;
     weapon_ammo := weapon_ammo s; chakram_stacks := n;
     active_chakrams := active_chakrams s; rng := rng s; rng_pos := rng_pos s |}.

Definition set_active_chakrams (s : ApheliosSimulator) (c : Py.fset)
  : ApheliosSimulator :=
  {| weapon_queue := weapon_queue s; main_hand := main_hand s; off_hand := off_hand s;
     item_names := item_names s; item_stats := item_stats s; stats := stats s;
     enemy_armor := enemy_armor s; enemy_health := enemy_health s;
     time := time s; ability_cooldown := ability_cooldown s;
     weapon_ammo := weapon_ammo s; chakram_stacks := chakram_stacks s;
     active_chakrams := c; rng := rng s; rng_pos := rng_pos s |}.

(** [random.random()] *)
Definition random_random (s : ApheliosSimulator) : Q * ApheliosSimulator :=
  (rng s (rng_pos s),
   {| weapon_queue := weapon_queue s; main_hand := main_hand s; off_hand := off_hand s;
      item_names := item_names s; item_stats := item_stats s; stats := stats s;
      enemy_armor := enemy_armor s; enemy_health := enemy_health s;
      time := time s; ability_cooldown := ability_cooldown s;
      weapon_ammo := weapon_ammo s; chakram_stacks := chakram_stacks s;
      active_chakrams := active_chakrams s; rng := rng s; rng_pos := S (rng_pos s) |}).

(** [d[w] = n] on the ammo table. *)
Definition ammo_set (f : weapon_name -> Z) (w : weapon_name) (n : Z)
  : weapon_name -> Z :=
  fun w' => if weapon_name_eqb w' w then n else f w'.

(** The object [__init__] assembles once the stats are known. *)
Definition new_simulator (random_source : nat -> Q) (items : list string)
  (item_stats : list item_dict) (stats : stats_dict)
  (enemy_armor enemy_health : Q) : ApheliosSimulator :=
  let weapon_queue := [Calibrum; Severum; Gravitum; Infernum; Crescendum] in
  {| weapon_queue := weapon_queue;
     main_hand := WEAPONS (nth 0 weapon_queue Calibrum);
     off_hand := WEAPONS (nth 1 weapon_queue Calibrum);
     item_names := items; item_stats := item_stats; stats := stats;
     enemy_armor := enemy_armor; enemy_health := enemy_health;
     time := 0.0; ability_cooldown := 0.0;
     weapon_ammo := fun _ => 50%Z;
     chakram_stacks := 0;
     active_chakrams := [];
     rng := random_source; rng_pos := 0 |}.

(** [[ITEMS[item] for item in items if item in ITEMS]] *)
Definition lookup_items (items : list string) : list item_dict :=
  flat_map (fun it => match Py.get ITEMS it with
                      | Some d => [d]
                      | None => []
                      end) items.

(** A simulator among the objects: its identity, the dict object that
    is its [stats], and its other fields.  The [stats] field of
    [fields] is not read; the dict is read through the reference. *)
Record simulator_object : Type := {
  object_id : nat;
  stats_ref : dict_ref;
  fields : ApheliosSimulator
}.

(** [self], with [self.stats] read from the heap. *)
Definition self_of (h : heap) (o : simulator_object) : ApheliosSimulator :=
  match heap_get h (stats_ref o) with
  | Some d => set_stats (fields o) d
  | None => fields o
  end.

(** [ApheliosSimulator.__init__].  [self_id] is the identity of the new
    object, [h] and [cache] the dict objects and the shared cache at the
    call; [random_source] is the stream the generator will produce. *)
Definition __init__ (self_id : nat) (h : heap) (cache : lru_cache)
  (random_source : nat -> Q) (items : list string) (enemy_armor enemy_health : Q)
  : result simulator_object * heap * lru_cache :=
  let item_stats := lookup_items items in
  let '(r, h, cache) :=
    calculate_base_stats_cached h cache self_id item_stats items in
  (ref <- r ;;
   Ok {| object_id := self_id;
         stats_ref := ref;
         fields := new_simulator random_source items item_stats
                     (match heap_get h ref with Some d => d | None => [] end)
                     enemy_armor enemy_health |},
   h, cache).

(** A method call on an object: the method runs on [self] and what it
    did to [self.stats] is done to the dict object. *)
Definition in_place
  (method : ApheliosSimulator -> result (Q * ApheliosSimulator))
  (h : heap) (o : simulator_object) : result (Q * simulator_object) * heap :=
  match method (self_of h o) with
  | Ok (x, self) =>
      (Ok (x, {| object_id := object_id o; stats_ref := stats_ref o;
                 fields := self |}),
       heap_set h (stats_ref o) (stats self))
  | Raise e => (Raise e, h)
  end.

(** ** [rotate_weapon] and [use_ammo] *)

(** The deque always holds the five weapon names (see
    [rotate_weapon_queue_length]), so [popleft] and the two index reads
    cannot fail; the defaults below are never used. *)
Definition rotate_weapon (self : ApheliosSimulator) : ApheliosSimulator :=
  let self := set_time self (time self + 1.0) in
  let self :=
    set_ability_cooldown self (Py.max (ability_cooldown self) (time self + 1.5)) in
  match weapon_queue self with
  | [] => self
  | exhausted :: rest =>
      let queue := (rest ++ [exhausted])%list in
      let self :=
        set_hands self queue
          (WEAPONS (nth 0 queue exhausted)) (WEAPONS (nth 1 queue exhausted)) in
      if weapon_name_eqb exhausted Crescendum
      then set_chakram_stacks self
             (Py.int (inject_Z (chakram_stacks self) * 0.7))
      else self
  end.

Definition use_ammo (self : ApheliosSimulator) (amount : Z) : ApheliosSimulator :=
  let w := name (main_hand self) in
  let self :=
    set_weapon_ammo self (ammo_set (weapon_ammo self) w (weapon_ammo self w - amount)) in
  if (weapon_ammo self (name (main_hand self)) <=? 0)%Z
  then rotate_weapon self
  else self.

(** ** [simulate_attack] *)

Definition simulate_attack (self : ApheliosSimulator)
  : result (Q * ApheliosSimulator) :=
  let self :=
    if (weapon_ammo self (name (main_hand self)) <=? 0)%Z
    then rotate_weapon self else self in
  let self := use_ammo self 1 in
  let base_ad := BASE_AD_LEVEL18 in
  bonus_ad <- Py.item (stats self) "BonusAD" ;;
  let total_ad := base_ad + bonus_ad + 68 in
  let attack_speed := Py.min 2.5 (BASE_AS * (1 + Py.get_default (stats self) "AS" 0)) in
  let base_damage := total_ad in
  let '(roll, self) := random_random self in
  crit <- Py.item (stats self) "Crit" ;;
  damage <- (if Py.ltb roll crit then
               crit_multiplier <- Py.item (stats self) "CritDmg" ;;
               Ok (base_damage * crit_multiplier)
             else Ok base_damage) ;;
  let weapon_modifier := fst (base_damage_mod (main_hand self)) in
  let damage := damage * weapon_modifier in
  '(damage, self) <-
    match name (main_hand self) with
    | Calibrum =>
        let mark_damage := total_ad * 0.15 in
        Ok (damage + mark_damage, self)
    | Severum =>
        ls <- Py.item (stats self) "LS" ;;
        Ok (damage, set_stats self (Py.set (stats self) "LS" (ls + damage * 0.03)))
    | Infernum =>
        let splash_damage := total_ad * 0.75 in
        Ok (damage + splash_damage, self)
    | _ => Ok (damage, self)
    end ;;
  let self :=
    if weapon_name_eqb (name (main_hand self)) Crescendum then
      (* the bonus lands in [base_damage], which is not read again *)
      let base_damage := total_ad * (0.1385 * inject_Z (chakram_stacks self)) in
      set_chakram_stacks self (Z.max 0 (chakram_stacks self - 3))
    else if weapon_name_eqb (name (off_hand self)) Crescendum then
      let '(roll, self) := random_random self in
      if Py.ltb roll 0.65
      then set_chakram_stacks self (Z.min 20 (chakram_stacks self + 1))
      else self
    else self in
  let effective_damage :=
    apply_physical_mitigation damage (enemy_armor self)
      (Py.get_default (stats self) "ArmorPen" 0.0)
      (Py.get_default (stats self) "Lethality" 0.0) in
  Ok (effective_damage, self).

(** ** [simulate_ability] *)

(** [len([t for t in active_chakrams if t > now])] *)
Definition unexpired (now : Q) (chakrams : Py.fset) : Z :=
  Z.of_nat (List.length (filter (fun t => Py.ltb now t) chakrams)).

Definition simulate_ability (self : ApheliosSimulator)
  : result (Q * ApheliosSimulator) :=
  let self :=
    if (weapon_ammo self (name (main_hand self)) <=? 0)%Z
    then rotate_weapon self else self in
  let self := use_ammo self 10 in
  bonus_ad <- Py.item (stats self) "BonusAD" ;;
  let total_ad := BASE_AD_LEVEL18 + bonus_ad + 68 in
  let weapon := name (main_hand self) in
  let raw_ability_damage := total_ad * snd (base_damage_mod (WEAPONS weapon)) in
  let ability_effects := ability_effect (WEAPONS weapon) in
  '(raw_ability_damage, self) <-
    match weapon with
    | Calibrum =>
        if Py.mem ability_effects "execute" then
          e <- Py.item ability_effects "execute" ;;
          Ok (raw_ability_damage * (1 + e), self)
        else Ok (raw_ability_damage, self)
    | Severum =>
        if Py.mem ability_effects "lifesteal_boost" then
          e <- Py.item ability_effects "lifesteal_boost" ;;
          let raw_ability_damage := raw_ability_damage * (1 + e) in
          ls <- Py.item (stats self) "LS" ;;
          Ok (raw_ability_damage,
              set_stats self (Py.set (stats self) "LS" (ls + raw_ability_damage * 0.03)))
        else Ok (raw_ability_damage, self)
    | Infernum =>
        if Py.mem ability_effects "splash" then
          e <- Py.item ability_effects "splash" ;;
          let raw_ability_damage := raw_ability_damage * (1 + e) in
          Ok (raw_ability_damage * 1.25, self)
        else Ok (raw_ability_damage, self)
    | _ => Ok (raw_ability_damage, self)
    end ;;
  let self :=
    if weapon_name_eqb (name (main_hand self)) Crescendum
    then set_active_chakrams self (Py.fset_add (time self + 5.0) (active_chakrams self))
    else self in
  let self :=
    set_chakram_stacks self (unexpired (time self) (active_chakrams self)) in
  let effective_damage :=
    apply_physical_mitigation raw_ability_damage (enemy_armor self)
      (Py.get_default (stats self) "ArmorPen" 0.0)
      (Py.get_default (stats self) "Lethality" 0.0) in
  Ok (effective_damage, self).

(** ** [calculate_dps] *)

(** One pass of the [while] body: the result is the damage dealt and
    the next state. *)
Definition dps_iteration (self : ApheliosSimulator)
  : result (Q * ApheliosSimulator) :=
  let self :=
    if (weapon_ammo self (name (main_hand self)) <=? 0)%Z
    then rotate_weapon self else self in
  let attack_speed := Py.min 3 (BASE_AS * (1 + Py.get_default (stats self) "AS" 0)) in
  if Qeq_bool attack_speed 0 then Raise Py.ZeroDivisionError else
  let attack_time := 1.0 / attack_speed in
  '(attack, self) <- simulate_attack self ;;
  let self := set_time self (time self + attack_time) in
  if Qle_bool ABILITY_COOLDOWN (time self - ability_cooldown self)
     && (10 <=? moonlight (main_hand self))%Z
  then
    '(ability, self) <- simulate_ability self ;;
    let self := set_ability_cooldown self (time self + ABILITY_CAST_TIME) in
    let self := set_time self (time self + ABILITY_CAST_TIME) in
    Ok (attack + ability, self)
  else Ok (attack, self).

(** The [while self.time < duration] loop. *)
Fixpoint dps_loop (fuel : nat) (duration : Q) (self : ApheliosSimulator)
  (total_damage : Q) : option (result (Q * ApheliosSimulator)) :=
  if Py.ltb (time self) duration then
    match fuel with
    | O => None
    | S fuel' =>
        match dps_iteration self with
        | Ok (dealt, self) => dps_loop fuel' duration self (total_damage + dealt)
        | Raise e => Some (Raise e)
        end
    end
  else Some (Ok (total_damage, self)).

Definition calculate_dps (fuel : nat) (self : ApheliosSimulator) (duration : Q)
  : option (result (Q * ApheliosSimulator)) :=
  let total_damage := 0.0 in
  match dps_loop fuel duration self total_damage with
  | None => None
  | Some (Raise e) => Some (Raise e)
  | Some (Ok (total_damage, self)) =>
      let self :=
        if forallb (fun w => (weapon_ammo self w <=? 0)%Z) WEAPON_NAMES
        then rotate_weapon self else self in
      Some (Ok (if Py.ltb 0 duration then total_damage / duration else 0, self))
  end.

(** ** The search driver *)

(** The tuple [simulate_build] returns. *)
Record ScoredResult : Type := {
  combo : list string;
  total_score : Q;
  dps : Q;
  damage_synergy : Q;
  health_scaling : Q;
  armor_mr_rating : Q;
  mobility_factor : Q;
  life_steal_rating : Q;
  omnivamp_rating : Q
}.

(** [itertools.combinations(l, k)] *)
Fixpoint combinations {A} (l : list A) (k : nat) {struct l} : list (list A) :=
  match k, l with
  | O, _ => [[]]
  | S _, [] => []
  | S k', x :: l' =>
      (map (cons x) (combinations l' k') ++ combinations l' k)%list
  end.

Fixpoint chunks_from {A} (fuel : nat) (lst : list A) (chunk_size : nat)
  : list (list A) :=
  match fuel, lst with
  | O, _ | _, [] => []
  | S fuel', _ =>
      firstn chunk_size lst :: chunks_from fuel' (skipn chunk_size lst) chunk_size
  end.

(** [list(chunkify(lst, chunk_size))]; [range] rejects a zero step.
    A negative step, for which [range] is empty, is outside the type. *)
Definition chunkify {A} (lst : list A) (chunk_size : nat)
  : result (list (list A)) :=
  match chunk_size with
  | O => Raise Py.ValueError
  | S _ => Ok (chunks_from (List.length lst) lst chunk_size)
  end.

(** [lambda x: (-x[1], -x[2])] *)
Definition rank_key (x : ScoredResult) : Q * Q := (- total_score x, - dps x).

(** [a < b] on pairs of floats: the first component that differs decides. *)
Definition pair_ltb (a b : Q * Q) : bool :=
  if Qeq_bool (fst a) (fst b) then Py.ltb (snd a) (snd b)
  else Py.ltb (fst a) (fst b).

(** [sorted(l, key=key)] is stable and compares keys with [<] only; on
    keys without NaN every stable sort returns the same list, so the
    insertion sort below stands for the library routine. *)
Fixpoint insert_by {A} (key : A -> Q * Q) (x : A) (l : list A) : list A :=
  match l with
  | [] => [x]
  | y :: l' =>
      if pair_ltb (key y) (key x) then y :: insert_by key x l'
      else x :: y :: l'
  end.

Definition sorted {A} (l : list A) (key : A -> Q * Q) : list A :=
  fold_right (insert_by key) [] l.

Section SearchDriver.

(** The item table the driver enumerates ([ITEMS] in the source). *)
Variable catalog : Py.dict item_dict.

(** What a worker returns for one combination, its random draws
    included, and the order in which the pool hands the chunks back. *)
Variable simulate_build : list string -> Q -> Q -> Q -> ScoredResult.
Variable as_completed : list (list ScoredResult) -> list (list ScoredResult).

Definition simulate_build_chunk (builds : list (list string))
  (simulation_duration enemy_armor enemy_health : Q) : list ScoredResult :=
  map (fun combo => simulate_build combo simulation_duration enemy_armor enemy_health)
    builds.

Definition optimize_over (simulation_duration enemy_armor enemy_health : Q)
  (chunk_size : nat) : result (list ScoredResult) :=
  let item_combos := filter is_valid_build (combinations (map fst catalog) 5) in
  chunks <- chunkify item_combos chunk_size ;;
  let futures :=
    map (fun chunk =>
           simulate_build_chunk chunk simulation_duration enemy_armor enemy_health)
      chunks in
  let all_results := List.concat (as_completed futures) in
  Ok (sorted all_results rank_key).

End SearchDriver.

Definition optimize_aphelios_build := optimize_over ITEMS.

(** ** Vocabulary of the properties *)

(** The two steps every tick starts with: rotate away from an empty
    weapon, then pay the ammo. *)
Definition prepare (self : ApheliosSimulator) (amount : Z) : ApheliosSimulator :=
  use_ammo
    (if (weapon_ammo self (name (main_hand self)) <=? 0)%Z
     then rotate_weapon self else self)
    amount.

(** The operations [calculate_dps] performs on the simulator, with the
    guards it puts on them.  The clock advance belongs to the attack it
    follows, the cooldown and clock updates to the cast they follow. *)
Inductive run_step : ApheliosSimulator -> ApheliosSimulator -> Prop :=
| step_rotate (s : ApheliosSimulator) :
    (weapon_ammo s (name (main_hand s)) <= 0)%Z ->
    run_step s (rotate_weapon s)
| step_attack (s s' : ApheliosSimulator) (dealt attack_time : Q) :
    simulate_attack s = Ok (dealt, s') ->
    run_step s (set_time s' (time s' + attack_time))
| step_ability (s s' : ApheliosSimulator) (dealt : Q) :
    ABILITY_COOLDOWN <= time s - ability_cooldown s ->
    (10 <= moonlight (main_hand s))%Z ->
    simulate_ability s = Ok (dealt, s') ->
    run_step s
      (set_time (set_ability_cooldown s' (time s' + ABILITY_CAST_TIME))
         (time s' + ABILITY_CAST_TIME)).

Inductive run : ApheliosSimulator -> ApheliosSimulator -> Prop :=
| run_refl (s : ApheliosSimulator) : run s s
| run_then (s s' s'' : ApheliosSimulator) :
    run s s' -> run_step s' s'' -> run s s''.

(** An object as [__init__] leaves it, as far as the rotation engine is
    concerned. *)
Definition fresh (s : ApheliosSimulator) : Prop :=
  chakram_stacks s = 0%Z /\ active_chakrams s = [] /\
  (forall w, weapon_ammo s w = 50%Z) /\ time s == 0.

(** The chakram entries are at most 4.5 s ahead of the cooldown stamp,
    and at most one of them is more than 1 s ahead of it. *)
Definition spaced (cooldown : Q) (chakrams : Py.fset) : Prop :=
  (forall e, In e chakrams -> e <= cooldown + 4.5) /\
  (List.length (filter (fun e => Py.ltb (cooldown + 1) e) chakrams) <= 1)%nat.

Definition chakram_invariant (s : ApheliosSimulator) : Prop :=
  (0 <= chakram_stacks s <= 20)%Z /\
  spaced (ability_cooldown s) (active_chakrams s).

(** The damage a tick returns, without the state. *)
Definition dealt_by (r : result (Q * ApheliosSimulator)) : result Q :=
  match r with
  | Ok (d, _) => Ok d
  | Raise e => Raise e
  end.

(** [n] attack ticks in a row, without casts. *)
Fixpoint attacks (n : nat) (self : ApheliosSimulator) : result ApheliosSimulator :=
  match n with
  | O => Ok self
  | S n' => '(_, self) <- simulate_attack self ;; attacks n' self
  end.

(** Two snapshots hold the same number under [k]. *)
Definition same_stat (k : string) (a b : stats_dict) : Prop :=
  match Py.get a k, Py.get b k with
  | Some x, Some y => x == y
  | None, None => True
  | _, _ => False
  end.

(** [x] may stand before [y] in a list sorted by [key]: the key of [y]
    is not smaller. *)
Definition stands_before {A} (key : A -> Q * Q) (x y : A) : Prop :=
  pair_ltb (key y) (key x) = false.

(** The ranking order on results. *)
Definition ranked_before (a b : ScoredResult) : Prop :=
  total_score b <= total_score a /\
  (total_score a == total_score b -> dps b <= dps a).

(** Everything the rotation engine reads, the stack counter apart. *)
Definition same_engine (a b : ApheliosSimulator) : Prop :=
  weapon_queue a = weapon_queue b /\ main_hand a = main_hand b /\
  off_hand a = off_hand b /\ time a = time b /\
  ability_cooldown a = ability_cooldown b /\ weapon_ammo a = weapon_ammo b /\
  active_chakrams a = active_chakrams b /\ enemy_armor a = enemy_armor b.

(** ** Example objects *)

Definition stats_or_empty (r : result stats_dict) : stats_dict :=
  match r with
  | Ok d => d
  | Raise _ => []
  end.

(** A simulator for [items] with the class defaults for the enemy; every
    draw of the generator is 0.99, so no attack crits and no off-hand
    stack is gained. *)
Definition simulator_for (items : list string) : ApheliosSimulator :=
  new_simulator (fun _ => 0.99) items (lookup_items items)
    (stats_or_empty (_calculate_base_stats (lookup_items items) items))
    250.0 3500.0.

(** The itemless simulator after four rotations, Crescendum in the main
    hand, holding [n] stacks. *)
Definition crescendum_in_hand (n : Z) : ApheliosSimulator :=
  set_chakram_stacks
    (rotate_weapon (rotate_weapon (rotate_weapon (rotate_weapon (simulator_for [])))))
    n.

(** What a tick returned, when it did. *)
Definition state_after (r : result (Q * ApheliosSimulator))
  (otherwise : ApheliosSimulator) : ApheliosSimulator :=
  match r with
  | Ok (_, s) => s
  | Raise _ => otherwise
  end.

Definition amount_dealt (r : result (Q * ApheliosSimulator)) : Q :=
  match r with
  | Ok (d, _) => d
  | Raise _ => 0
  end.

(** The itemless simulator after three rotations, Infernum in the main
    hand and Crescendum in the off hand, holding [n] stacks. *)
Definition crescendum_off_hand (n : Z) : ApheliosSimulator :=
  set_chakram_stacks
    (rotate_weapon (rotate_weapon (rotate_weapon (simulator_for []))))
    n.

(** The number a finished aggregation holds under [k], in lowest terms. *)
Definition stat_of (r : result stats_dict) (k : string) : option Q :=
  match r with
  | Ok d => option_map Qred (Py.get d k)
  | Raise _ => None
  end.

(** Two items that grant 0.15 percent armor penetration each, under the
    given spelling of the stat. *)
Definition two_pen_items (spelling : string) : list item_dict :=
  [ [(spelling, num 0.15); ("name", str "First")];
    [(spelling, num 0.15); ("name", str "Second")] ].

(** Two legal five-item builds over the same set of catalog items. *)
Definition cleaver_first : list string :=
  ["Black Cleaver"; "Lord Dominik's Regards"; "Infinity Edge";
   "Kraken Slayer"; "Bloodthirster"].
Definition dominik_first : list string :=
  ["Lord Dominik's Regards"; "Black Cleaver"; "Infinity Edge";
   "Kraken Slayer"; "Bloodthirster"].

(** ** Binary64 counterparts

    The float expressions of the source whose rounding the rational
    model abstracts from, for the checks in Part II. *)

Module Binary64.

(** [0.6 + 0.4], the lethality factor. *)
Definition lethality_factor : PrimFloat.float := (0.6 + 0.4)%float.

(** [chakram_stacks * 0.7], the argument of [int] in [rotate_weapon]. *)
Definition decay_product (n : PrimInt63.int) : PrimFloat.float :=
  (PrimFloat.of_uint63 n * 0.7)%float.

(** An accumulator that starts at [0.0] and takes the values in order,
    as [bonus_ad] does. *)
Definition accumulate (xs : list PrimFloat.float) : PrimFloat.float :=
  fold_left PrimFloat.add xs 0%float.

(** [lo <= x < lo + 1], that is [int(x) == lo] for [x >= 0]. *)
Definition truncates_to (x : PrimFloat.float) (lo : PrimInt63.int) : bool :=
  (PrimFloat.leb (PrimFloat.of_uint63 lo) x
   && PrimFloat.ltb x (PrimFloat.of_uint63 lo + 1)%float)%bool.

(** The stack counts 0..20 with the integer the rational model decays
    them to. *)
Definition decay_table : list (PrimInt63.int * PrimInt63.int) :=
  [ (0, 0); (1, 0); (2, 1); (3, 2); (4, 2); (5, 3); (6, 4); (7, 4);
    (8, 5); (9, 6); (10, 7); (11, 7); (12, 8); (13, 9); (14, 9);
    (15, 10); (16, 11); (17, 11); (18, 12); (19, 13); (20, 14) ]%uint63.

End Binary64.

(** The five ammo counters, in the order of [WEAPON_NAMES]. *)
Definition ammo_table (s : ApheliosSimulator) : list Z :=
  map (weapon_ammo s) WEAPON_NAMES.

(** The state a sequence of ticks or a whole run ended in, when it
    returned. *)
Definition ending (r : result ApheliosSimulator) (otherwise : ApheliosSimulator)
  : ApheliosSimulator :=
  match r with
  | Ok s => s
  | Raise _ => otherwise
  end.

Definition run_ending (r : option (result (Q * ApheliosSimulator)))
  (otherwise : ApheliosSimulator) : ApheliosSimulator :=
  match r with
  | Some (Ok (_, s)) => s
  | _ => otherwise
  end.

(** The ranking a call of the driver returned, when it did. *)
Definition ranking_of (r : result (list ScoredResult)) : list ScoredResult :=
  match r with
  | Ok l => l
  | Raise _ => []
  end.

(** A six-item catalog and a stand-in worker that scores a combination
    by the lengths of its first two names, for trying the driver out. *)
Definition small_catalog : Py.dict item_dict := firstn 6 ITEMS.

Definition length_scorer (combo : list string) (_ _ _ : Q) : ScoredResult :=
  {| combo := combo;
     total_score := inject_Z (Z.of_nat (String.length (nth 0 combo ""))) / 2;
     dps := inject_Z (Z.of_nat (String.length (nth 1 combo "")));
     damage_synergy := 0; health_scaling := 0; armor_mr_rating := 0;
     mobility_factor := 0; life_steal_rating := 0; omnivamp_rating := 0 |}.

(** In the words of the claim: the number of timed-effect entries that
    have not yet expired at [now].  An entry is its expiry time; it is
    live while that time is later than [now]. *)
Fixpoint spec_live_entries (now : Q) (entries : list Q) : Z :=
  match entries with
  | [] => 0
  | e :: rest =>
      ((if Qlt_le_dec now e then 1 else 0) + spec_live_entries now rest)%Z
  end.

(** A simulator in the state of [s], with the chakram set replaced. *)
Definition holding_chakrams (s : ApheliosSimulator) (chakrams : list Q)
  : ApheliosSimulator :=
  set_active_chakrams s chakrams.

(** What happens to the cache and to the dict objects between two
    calls: a call of the decorated method by some object, or an update
    in place of a dict by the simulator that holds it. *)
Inductive cache_event : Type :=
| Call (k : cache_key) (user_function : unit -> result stats_dict)
| Update (r : dict_ref) (d : stats_dict).

Fixpoint after_events (h : heap) (c : lru_cache) (events : list cache_event)
  : heap * lru_cache :=
  match events with
  | [] => (h, c)
  | Call k f :: rest =>
      let '(_, h, c) := cached_call h c k f in after_events h c rest
  | Update r d :: rest => after_events (heap_set h r d) c rest
  end.

Fixpoint count_calls (events : list cache_event) : nat :=
  match events with
  | [] => 0
  | Call _ _ :: rest => S (count_calls rest)
  | Update _ _ :: rest => count_calls rest
  end.

(** The updates of [events] alone, on the objects of [h]. *)
Fixpoint updates_only (h : heap) (events : list cache_event) : heap :=
  match events with
  | [] => h
  | Call _ _ :: rest => updates_only h rest
  | Update r d :: rest => updates_only (heap_set h r d) rest
  end.

(** The number the dict object [r] holds under [k], in lowest terms. *)
Definition stat_at (h : heap) (r : dict_ref) (k : string) : option Q :=
  match heap_get h r with
  | Some d => option_map Qred (Py.get d k)
  | None => None
  end.

(** What the snapshot of [cleaver_first] holds after its simulator has
    run 51 attack ticks: the 51st is Severum's and credits [LS]. *)
Definition worn_stats : stats_dict :=
  stats (ending (attacks 51 (simulator_for cleaver_first))
           (simulator_for cleaver_first)).

(* ================================================================== *)
(** * Part II.  Properties                                              *)
(* ================================================================== *)

(** ** Python built-ins *)

Lemma ltb_lt (a b : Q) : Py.ltb a b = true <-> a < b.
Proof.
  unfold Py.ltb. rewrite negb_true_iff.
  destruct (Qle_bool b a) eqn:E.
  - apply Qle_bool_iff in E. split; [discriminate | intros H; lra].
  - split; [intros _ | reflexivity].
    destruct (Qlt_le_dec a b) as [H | H]; [exact H |].
    apply Qle_bool_iff in H. congruence.
Qed.

Lemma ltb_ge (a b : Q) : Py.ltb a b = false <-> b <= a.
Proof.
  destruct (Py.ltb a b) eqn:E.
  - apply ltb_lt in E. split; [discriminate | intros H; lra].
  - split; [intros _ | reflexivity].
    destruct (Qlt_le_dec a b) as [H | H]; [| exact H].
    apply ltb_lt in H. congruence.
Qed.

Lemma max_spec (a b : Q) :
  (a < b /\ Py.max a b = b) \/ (b <= a /\ Py.max a b = a).
Proof.
  unfold Py.max. destruct (Py.ltb a b) eqn:E.
  - left. split; [now apply ltb_lt | reflexivity].
  - right. split; [now apply ltb_ge | reflexivity].
Qed.

Lemma max_Qmax (a b : Q) : Py.max a b == Qmax a b.
Proof.
  destruct (max_spec a b) as [[H ->] | [H ->]];
    destruct (Q.max_spec a b) as [[H' E] | [H' E]]; rewrite E; lra.
Qed.

(** ** Mitigation *)

Lemma lethality_conversion (lethality : Q) : lethality * (0.6 + 0.4) == lethality.
Proof. lra. Qed.

Lemma Qdiv_unfold (a b : Q) : a / b = a * / b.
Proof. reflexivity. Qed.

Lemma hundred_over_antitone (x y : Q) :
  0 <= x -> x <= y -> 100 / (100 + y) <= 100 / (100 + x).
Proof.
  intros Hx Hxy.
  apply Qle_shift_div_l; [lra |].
  rewrite Qdiv_unfold, <- Qmult_assoc, (Qmult_comm (/ _)), Qmult_assoc.
  apply Qle_shift_div_r; lra.
Qed.

Lemma hundred_over_pos (x : Q) : 0 <= x -> 0 < 100 / (100 + x).
Proof. intros Hx. apply Qlt_shift_div_l; lra. Qed.

Lemma hundred_over_proper (x y : Q) : x == y -> 100 / (100 + x) == 100 / (100 + y).
Proof. intros ->. reflexivity. Qed.

(** What the function computes, with the floors spelled out. *)
Lemma apply_physical_mitigation_eq (d a p L : Q) :
  apply_physical_mitigation d a p L
  == d * (100 / (100 + spec_resulting_armor a p L))
  /\ 0 <= spec_resulting_armor a p L.
Proof.
  unfold apply_physical_mitigation, spec_resulting_armor.
  set (flat := L * (0.6 + 0.4)).
  assert (Hflat : flat == 1 * L) by (unfold flat; lra).
  set (f := Py.max 0 (Py.max 0 (a - flat) * (1 - p))).
  assert (Hf : f == Qmax 0 (Qmax 0 (a - 1 * L) * (1 - p))).
  { unfold f. rewrite !max_Qmax, Hflat. reflexivity. }
  assert (Hpos : 0 <= f).
  { unfold f. destruct (max_spec 0 (Py.max 0 (a - flat) * (1 - p)))
      as [[H ->] | [H ->]]; lra. }
  split.
  - destruct (Qle_bool 0 f) eqn:E.
    + rewrite (hundred_over_proper _ _ Hf). reflexivity.
    + apply Qle_bool_iff in Hpos. congruence.
  - rewrite <- Hf. exact Hpos.
Qed.

Lemma spec_resulting_armor_mono (a a' p L : Q) :
  p <= 1 -> a <= a' ->
  spec_resulting_armor a p L <= spec_resulting_armor a' p L.
Proof.
  intros Hp Ha. unfold spec_resulting_armor.
  apply Q.max_le_compat_l.
  assert (H : Qmax 0 (a - 1 * L) <= Qmax 0 (a' - 1 * L)).
  { apply Q.max_le_compat_l. lra. }
  nra.
Qed.

Lemma spec_resulting_armor_above (a p L : Q) :
  0 <= p -> p <= 1 -> 0 <= L -> L <= a ->
  spec_resulting_armor a p L == (a - L) * (1 - p).
Proof.
  intros Hp0 Hp1 HL Ha. unfold spec_resulting_armor.
  rewrite (Q.max_r 0 (a - 1 * L)) by lra.
  rewrite Q.max_r by nra. lra.
Qed.

(** C4.  For percent penetration [p] in [0,1] and lethality [L >= 0] the
    mitigation function counts lethality at exactly 1.0x, floors both
    subtractions at 0 and returns [d * 100 / (100 + r)] for the resulting
    armor [r >= 0]; armor 0 leaves [d] unchanged, armor 100 without
    penetration halves it, and the multiplier decreases as armor grows
    (strictly so once armor exceeds the lethality and [p < 1]). *)
Theorem mitigation_nonnegative_armor (d a p L : Q) :
  0 <= p -> p <= 1 -> 0 <= L ->
  let r := spec_resulting_armor a p L in
  0 <= r
  /\ apply_physical_mitigation d a p L == d * (100 / (100 + r))
  /\ apply_physical_mitigation d 0 p L == d
  /\ apply_physical_mitigation d 100 0 0 == d * 0.5
  /\ (forall a', 0 <= a -> a <= a' ->
        apply_physical_mitigation 1 a' p L <= apply_physical_mitigation 1 a p L)
  /\ (forall a', p < 1 -> L <= a -> a < a' ->
        apply_physical_mitigation 1 a' p L < apply_physical_mitigation 1 a p L).
Proof.
  intros Hp0 Hp1 HL r.
  destruct (apply_physical_mitigation_eq d a p L) as [Heq Hr].
  repeat split.
  - exact Hr.
  - exact Heq.
  - destruct (apply_physical_mitigation_eq d 0 p L) as [E _]. rewrite E.
    assert (Hz : spec_resulting_armor 0 p L == 0).
    { unfold spec_resulting_armor.
      rewrite (Q.max_l 0 (0 - 1 * L)) by lra.
      rewrite Q.max_l by lra. reflexivity. }
    rewrite (hundred_over_proper _ _ Hz). field.
  - destruct (apply_physical_mitigation_eq d 100 0 0) as [E _]. rewrite E.
    assert (Hz : spec_resulting_armor 100 0 0 == 100).
    { rewrite spec_resulting_armor_above by lra. lra. }
    rewrite (hundred_over_proper _ _ Hz). field.
  - intros a' Ha Haa'.
    destruct (apply_physical_mitigation_eq 1 a p L) as [E1 P1].
    destruct (apply_physical_mitigation_eq 1 a' p L) as [E2 P2].
    rewrite E1, E2, !Qmult_1_l.
    apply hundred_over_antitone; [exact P1 |].
    apply spec_resulting_armor_mono; assumption.
  - intros a' Hp HLa Haa'.
    destruct (apply_physical_mitigation_eq 1 a p L) as [E1 P1].
    destruct (apply_physical_mitigation_eq 1 a' p L) as [E2 P2].
    rewrite E1, E2, !Qmult_1_l.
    assert (R1 := spec_resulting_armor_above a p L Hp0 Hp1 HL HLa).
    assert (R2 : spec_resulting_armor a' p L == (a' - L) * (1 - p)).
    { apply spec_resulting_armor_above; lra. }
    rewrite (hundred_over_proper _ _ R1), (hundred_over_proper _ _ R2).
    apply Qlt_shift_div_l; [nra |].
    rewrite Qdiv_unfold, <- Qmult_assoc, (Qmult_comm (/ _)), Qmult_assoc.
    apply Qlt_shift_div_r; nra.
Qed.

Lemma mitigation_nonnegative_armor_witness :
  apply_physical_mitigation 80 150 0.4 30 == 80 * (100 / (100 + 72)).
Proof.
  destruct (mitigation_nonnegative_armor 80 150 0.4 30) as (_ & H & _);
    [lra | lra | lra |].
  rewrite H. apply Qmult_comp; [reflexivity |].
  apply hundred_over_proper. vm_compute. reflexivity.
Defined.

(** The penetration steps never hand a negative armor to the formula:
    with non-negative lethality a target at or below 0 armor takes the
    raw damage, whatever the penetration. *)
Lemma mitigation_nonpositive_armor (d a p L : Q) :
  a <= 0 -> 0 <= L -> apply_physical_mitigation d a p L == d.
Proof.
  intros Ha HL.
  destruct (apply_physical_mitigation_eq d a p L) as [E _]. rewrite E.
  assert (Hz : spec_resulting_armor a p L == 0).
  { unfold spec_resulting_armor.
    rewrite (Q.max_l 0 (a - 1 * L)) by lra.
    rewrite Q.max_l by lra. reflexivity. }
  rewrite (hundred_over_proper _ _ Hz). field.
Qed.

(** C2 (the code departs from the claim).  At [enemy_armor = -100]
    without penetration the function returns the raw damage: the
    multiplier is 1, not the documented [2 - 100/200 = 1.5], and it stays
    1 at [-200]. *)
Theorem negative_armor_not_amplified :
  apply_physical_mitigation 100 (-100) 0 0 == 100
  /\ ~ apply_physical_mitigation 100 (-100) 0 0 == 100 * documented_multiplier (-100)
  /\ documented_multiplier (-100) == 1.5
  /\ apply_physical_mitigation 100 (-200) 0 0 == apply_physical_mitigation 100 (-100) 0 0.
Proof.
  repeat split; vm_compute; congruence.
Qed.

(** ** Rotation and ammunition *)

Ltac unfold_rotate :=
  unfold rotate_weapon; cbn;
  match goal with
  | |- context [match weapon_queue ?s with _ => _ end] =>
      destruct (weapon_queue s) as [| exhausted rest]; cbn;
      [| destruct (weapon_name_eqb exhausted Crescendum); cbn]
  end.

Lemma rotate_weapon_time (s : ApheliosSimulator) :
  time (rotate_weapon s) = time s + 1.0.
Proof. unfold_rotate; reflexivity. Qed.

Lemma rotate_weapon_cooldown (s : ApheliosSimulator) :
  ability_cooldown (rotate_weapon s)
  = Py.max (ability_cooldown s) (time s + 1.0 + 1.5).
Proof. unfold_rotate; reflexivity. Qed.

Lemma rotate_weapon_ammo (s : ApheliosSimulator) :
  weapon_ammo (rotate_weapon s) = weapon_ammo s.
Proof. unfold_rotate; reflexivity. Qed.

Lemma rotate_weapon_chakrams (s : ApheliosSimulator) :
  active_chakrams (rotate_weapon s) = active_chakrams s.
Proof. unfold_rotate; reflexivity. Qed.

Lemma rotate_weapon_stats (s : ApheliosSimulator) :
  stats (rotate_weapon s) = stats s.
Proof. unfold_rotate; reflexivity. Qed.

Lemma rotate_weapon_stacks (s : ApheliosSimulator) :
  chakram_stacks (rotate_weapon s) = chakram_stacks s
  \/ chakram_stacks (rotate_weapon s) = Py.int (inject_Z (chakram_stacks s) * 0.7).
Proof. unfold_rotate; auto. Qed.

(** The deque keeps its length, so a queue of five stays a queue of
    five and the defaults of [rotate_weapon] are dead. *)
Lemma rotate_weapon_queue_length (s : ApheliosSimulator) :
  List.length (weapon_queue (rotate_weapon s)) = List.length (weapon_queue s).
Proof.
  unfold rotate_weapon. simpl.
  destruct (weapon_queue s) as [| exhausted rest] eqn:E.
  - simpl. rewrite E. reflexivity.
  - destruct (weapon_name_eqb exhausted Crescendum); simpl;
      rewrite length_app; simpl; lia.
Qed.

Lemma decay_bounds (n : Z) :
  (0 <= n <= 20)%Z -> (0 <= Py.int (inject_Z n * 0.7) <= 20)%Z.
Proof.
  intros Hn. unfold Py.int. cbn.
  rewrite Z.quot_div_nonneg by lia.
  split.
  - apply Z.div_pos; lia.
  - apply Z.div_le_upper_bound; lia.
Qed.

Lemma cooldown_le_max (a b : Q) : a <= Py.max a b.
Proof. destruct (max_spec a b) as [[H ->] | [H ->]]; lra. Qed.

Lemma rotate_weapon_cooldown_le (s : ApheliosSimulator) :
  ability_cooldown s <= ability_cooldown (rotate_weapon s).
Proof. rewrite rotate_weapon_cooldown. apply cooldown_le_max. Qed.

Lemma rotate_weapon_time_le (s : ApheliosSimulator) :
  time s <= time (rotate_weapon s).
Proof. rewrite rotate_weapon_time. lra. Qed.

Lemma ammo_set_same (f : weapon_name -> Z) (w : weapon_name) (n : Z) :
  ammo_set f w n w = n.
Proof. unfold ammo_set. destruct w; reflexivity. Qed.

Lemma ammo_set_le (f : weapon_name -> Z) (w w' : weapon_name) (amount : Z) :
  (0 <= amount)%Z -> (ammo_set f w (f w - amount) w' <= f w')%Z.
Proof.
  intros Ha. unfold ammo_set.
  destruct w, w'; cbn; lia.
Qed.

Ltac unfold_use_ammo :=
  unfold use_ammo;
  match goal with
  | |- context [if ?c then rotate_weapon ?t else _] => destruct c
  end.

Lemma use_ammo_time_le (s : ApheliosSimulator) (amount : Z) :
  time s <= time (use_ammo s amount).
Proof.
  unfold_use_ammo; [rewrite rotate_weapon_time |]; cbn; lra.
Qed.

Lemma use_ammo_cooldown_le (s : ApheliosSimulator) (amount : Z) :
  ability_cooldown s <= ability_cooldown (use_ammo s amount).
Proof.
  unfold_use_ammo; [| cbn; lra].
  eapply Qle_trans; [| apply rotate_weapon_cooldown_le]. cbn. lra.
Qed.

Lemma use_ammo_chakrams (s : ApheliosSimulator) (amount : Z) :
  active_chakrams (use_ammo s amount) = active_chakrams s.
Proof.
  unfold_use_ammo; [rewrite rotate_weapon_chakrams |]; reflexivity.
Qed.

Lemma use_ammo_stats (s : ApheliosSimulator) (amount : Z) :
  stats (use_ammo s amount) = stats s.
Proof.
  unfold_use_ammo; [rewrite rotate_weapon_stats |]; reflexivity.
Qed.

Lemma use_ammo_ammo (s : ApheliosSimulator) (amount : Z) (w : weapon_name) :
  (0 <= amount)%Z ->
  (weapon_ammo (use_ammo s amount) w <= weapon_ammo s w)%Z.
Proof.
  intros Ha.
  unfold_use_ammo; [rewrite rotate_weapon_ammo |]; cbn; now apply ammo_set_le.
Qed.

Lemma use_ammo_stacks_bounds (s : ApheliosSimulator) (amount : Z) :
  (0 <= chakram_stacks s <= 20)%Z ->
  (0 <= chakram_stacks (use_ammo s amount) <= 20)%Z.
Proof.
  intros Hs.
  unfold_use_ammo; [| exact Hs].
  match goal with
  | |- context [rotate_weapon ?t] =>
      destruct (rotate_weapon_stacks t) as [-> | ->]
  end; [exact Hs | now apply decay_bounds].
Qed.

(** ** Attack ticks *)

(** Case analysis on a computation that returned. *)
Ltac inv_bind H :=
  match type of H with
  | Py.bind ?r _ = _ =>
      let E := fresh "E" in
      destruct r eqn:E; cbn [Py.bind] in H; [| discriminate H]
  | (if ?c then _ else _) = _ =>
      let E := fresh "E" in destruct c eqn:E
  | match ?x with _ => _ end = _ =>
      let E := fresh "E" in destruct x eqn:E
  end.

Ltac inv_ok :=
  repeat match goal with
  | H : Py.Ok _ = Py.Ok _ |- _ => injection H as H; subst
  | H : (_, _) = (_, _) |- _ => injection H as H; subst
  | H : Py.Raise _ = Py.Ok _ |- _ => discriminate H
  | H : Py.bind _ _ = Py.Ok _ |- _ => inv_bind H
  | H : (if _ then _ else _) = Py.Ok _ |- _ => inv_bind H
  | H : match _ with _ => _ end = Py.Ok _ |- _ => inv_bind H
  end.

(** Case analysis on the branches of a goal. *)
Ltac split_branches :=
  repeat (match goal with
          | |- context [match ?c with Calibrum => _ | _ => _ end] =>
              destruct c eqn:?; simpl
          | |- context [if ?c then _ else _] => destruct c eqn:?; simpl
          | |- context [Py.bind (Py.item ?d ?k) _] =>
              destruct (Py.item d k) eqn:?; simpl
          end).

(** An attack tick touches the engine only through [prepare]; after it,
    the counter is consumed (main hand), possibly raised (off hand) or
    left alone. *)
Lemma weapon_name_eqb_eq (a b : weapon_name) :
  weapon_name_eqb a b = true <-> a = b.
Proof. destruct a, b; cbn; split; congruence. Qed.

Lemma simulate_attack_frame (s s' : ApheliosSimulator) (d : Q) :
  simulate_attack s = Ok (d, s') ->
  let s1 := prepare s 1 in
  same_engine s' s1 /\
  (name (main_hand s1) = Crescendum ->
   chakram_stacks s' = Z.max 0 (chakram_stacks s1 - 3)) /\
  (name (main_hand s1) <> Crescendum ->
   chakram_stacks s' = chakram_stacks s1
   \/ (name (off_hand s1) = Crescendum
       /\ chakram_stacks s' = Z.min 20 (chakram_stacks s1 + 1))).
Proof.
  intros H s1.
  unfold simulate_attack in H.
  fold (prepare s 1) in H. fold s1 in H.
  cbv zeta in H. unfold random_random in H. cbn in H.
  inv_ok.
  all: cbn;
    repeat match goal with
           | E : name _ = _ |- _ => rewrite E in *; clear E
           end; cbn;
    repeat (match goal with
            | |- context [if ?c then _ else _] => destruct c eqn:?
            end; cbn);
    (split; [unfold same_engine; cbn; auto 12 |]);
    split; intros; try congruence; auto.
  all: right; split; [now apply weapon_name_eqb_eq | reflexivity].
Qed.

Lemma rotate_set_stacks (s : ApheliosSimulator) (n : Z) :
  exists m, rotate_weapon (set_chakram_stacks s n)
            = set_chakram_stacks (rotate_weapon s) m.
Proof.
  unfold rotate_weapon. simpl.
  destruct (weapon_queue s) as [| exhausted rest].
  - exists n. reflexivity.
  - destruct (weapon_name_eqb exhausted Crescendum); eexists; reflexivity.
Qed.

Lemma use_ammo_set_stacks (s : ApheliosSimulator) (n amount : Z) :
  exists m, use_ammo (set_chakram_stacks s n) amount
            = set_chakram_stacks (use_ammo s amount) m.
Proof.
  unfold use_ammo. simpl.
  destruct (_ <=? 0)%Z.
  - apply (rotate_set_stacks (set_weapon_ammo s _) n).
  - exists n. reflexivity.
Qed.

Lemma prepare_set_stacks (s : ApheliosSimulator) (n amount : Z) :
  exists m, prepare (set_chakram_stacks s n) amount
            = set_chakram_stacks (prepare s amount) m.
Proof.
  unfold prepare. simpl.
  destruct (_ <=? 0)%Z.
  - destruct (rotate_set_stacks s n) as [m ->]. apply use_ammo_set_stacks.
  - apply use_ammo_set_stacks.
Qed.

(** The damage of an attack tick does not read the stack counter. *)
Lemma simulate_attack_ignores_stacks (s : ApheliosSimulator) (n : Z) :
  dealt_by (simulate_attack (set_chakram_stacks s n))
  = dealt_by (simulate_attack s).
Proof.
  unfold simulate_attack.
  destruct (prepare_set_stacks s n 1) as [k Hk].
  fold (prepare (set_chakram_stacks s n) 1). fold (prepare s 1).
  rewrite Hk. generalize (prepare s 1). intros t.
  cbv zeta. unfold random_random. simpl.
  split_branches; reflexivity.
Qed.

(** C1 (the code departs from the claim).  With Crescendum in the main
    hand the tick does lower the counter by 3, floored at 0, but the
    returned damage is the same for every stack count: at 6 stacks it is
    the plain hit [total_ad * 0.5] after mitigation, and the bonus
    [total_ad * (0.1385 * 6)] is not part of it. *)
Theorem crescendum_bonus_is_dropped :
  (forall s n,
      dealt_by (simulate_attack (set_chakram_stacks s n))
      = dealt_by (simulate_attack s))
  /\ match simulate_attack (crescendum_in_hand 6),
           simulate_attack (crescendum_in_hand 0) with
     | Ok (d6, s6), Ok (d0, s0) =>
         d6 == d0
         /\ d6 == apply_physical_mitigation (162.1 * 0.5) 250 0 0
         /\ ~ d6 == apply_physical_mitigation
                      (162.1 * 0.5 + 162.1 * (0.1385 * 6)) 250 0 0
         /\ name (main_hand s6) = Crescendum
         /\ chakram_stacks s6 = 3%Z
         /\ chakram_stacks s0 = 0%Z
     | _, _ => False
     end.
Proof.
  split.
  - exact simulate_attack_ignores_stacks.
  - vm_compute. repeat split; congruence.
Qed.

(** ** Ability casts *)

Lemma prepare_time_le (s : ApheliosSimulator) (amount : Z) :
  time s <= time (prepare s amount).
Proof.
  unfold prepare. destruct (_ <=? 0)%Z.
  - eapply Qle_trans; [apply rotate_weapon_time_le | apply use_ammo_time_le].
  - apply use_ammo_time_le.
Qed.

Lemma prepare_cooldown_le (s : ApheliosSimulator) (amount : Z) :
  ability_cooldown s <= ability_cooldown (prepare s amount).
Proof.
  unfold prepare. destruct (_ <=? 0)%Z.
  - eapply Qle_trans; [apply rotate_weapon_cooldown_le | apply use_ammo_cooldown_le].
  - apply use_ammo_cooldown_le.
Qed.

Lemma prepare_chakrams (s : ApheliosSimulator) (amount : Z) :
  active_chakrams (prepare s amount) = active_chakrams s.
Proof.
  unfold prepare. rewrite use_ammo_chakrams.
  destruct (_ <=? 0)%Z; [apply rotate_weapon_chakrams | reflexivity].
Qed.

Lemma prepare_ammo (s : ApheliosSimulator) (amount : Z) (w : weapon_name) :
  (0 <= amount)%Z ->
  (weapon_ammo (prepare s amount) w <= weapon_ammo s w)%Z.
Proof.
  intros Ha. unfold prepare.
  eapply Z.le_trans; [now apply use_ammo_ammo |].
  destruct (_ <=? 0)%Z; [rewrite rotate_weapon_ammo |]; lia.
Qed.

Lemma prepare_stacks_bounds (s : ApheliosSimulator) (amount : Z) :
  (0 <= chakram_stacks s <= 20)%Z ->
  (0 <= chakram_stacks (prepare s amount) <= 20)%Z.
Proof.
  intros Hs. unfold prepare. apply use_ammo_stacks_bounds.
  destruct (_ <=? 0)%Z; [| exact Hs].
  destruct (rotate_weapon_stacks s) as [-> | ->];
    [exact Hs | now apply decay_bounds].
Qed.

(** A cast touches the engine through [prepare], may add one entry to
    the chakram set, and then overwrites the counter. *)
Lemma simulate_ability_frame (s s' : ApheliosSimulator) (d : Q) :
  simulate_ability s = Ok (d, s') ->
  let s1 := prepare s 10 in
  time s' = time s1 /\
  ability_cooldown s' = ability_cooldown s1 /\
  weapon_ammo s' = weapon_ammo s1 /\
  main_hand s' = main_hand s1 /\
  active_chakrams s'
  = (if weapon_name_eqb (name (main_hand s1)) Crescendum
     then Py.fset_add (time s1 + 5.0) (active_chakrams s1)
     else active_chakrams s1) /\
  chakram_stacks s' = unexpired (time s') (active_chakrams s').
Proof.
  intros H s1.
  unfold simulate_ability in H.
  fold (prepare s 10) in H. fold s1 in H.
  cbv zeta in H. cbn in H.
  inv_ok.
  all: cbn; try discriminate;
    repeat match goal with
           | E : name _ = _ |- _ => rewrite E in *; clear E
           end; cbn; auto 12.
Qed.

(** The recount of the source agrees with the count of live entries. *)
Lemma unexpired_live (now : Q) (l : list Q) :
  unexpired now l = spec_live_entries now l.
Proof.
  unfold unexpired. induction l as [| e l IH]; [reflexivity |].
  cbn [filter spec_live_entries].
  destruct (Py.ltb now e) eqn:E; destruct (Qlt_le_dec now e) as [H | H].
  - cbn [List.length]. rewrite Nat2Z.inj_succ, IH. lia.
  - apply ltb_lt in E. lra.
  - apply ltb_ge in E. lra.
  - rewrite IH. lia.
Qed.

Lemma spec_live_entries_nonneg (now : Q) (l : list Q) :
  (0 <= spec_live_entries now l)%Z.
Proof.
  induction l as [| e l IH]; cbn; [lia |].
  destruct (Qlt_le_dec now e); lia.
Qed.

Lemma spec_live_entries_pos (now x : Q) (l : list Q) :
  now < x -> (exists e, In e l /\ e == x) ->
  (1 <= spec_live_entries now l)%Z.
Proof.
  intros Hx (e & He & Heq).
  induction l as [| e' l IH]; [destruct He |].
  cbn. pose proof (spec_live_entries_nonneg now l).
  destruct He as [-> | He].
  - destruct (Qlt_le_dec now e); [lia | lra].
  - specialize (IH He). destruct (Qlt_le_dec now e'); lia.
Qed.

Lemma fset_add_holds (x : Q) (l : Py.fset) :
  exists e, In e (Py.fset_add x l) /\ e == x.
Proof.
  unfold Py.fset_add. destruct (existsb (Qeq_bool x) l) eqn:E.
  - apply existsb_exists in E. destruct E as (e & He & Heq).
    exists e. split; [exact He |]. apply Qeq_bool_iff in Heq. symmetry. exact Heq.
  - exists x. split; [now left | reflexivity].
Qed.

Lemma simulate_ability_ignores_stacks (s : ApheliosSimulator) (n : Z) :
  simulate_ability (set_chakram_stacks s n) = simulate_ability s.
Proof.
  unfold simulate_ability.
  destruct (prepare_set_stacks s n 10) as [k Hk].
  fold (prepare (set_chakram_stacks s n) 10). fold (prepare s 10).
  rewrite Hk. generalize (prepare s 10). intros t.
  cbv zeta. simpl.
  split_branches; reflexivity.
Qed.

(** C9.  A cast, whatever the main-hand weapon, leaves in the counter
    the number of chakram entries that have not yet expired, and its
    outcome is the same whatever the counter held before.  With a weapon
    other than Crescendum in the main hand the set is left as it was, so
    the new counter is the number of live entries of the old set and
    stacks gained off-hand are gone; with Crescendum the entry added by
    the cast is live, so the counter is at least 1. *)
Theorem ability_cast_overwrites_stacks (s s' : ApheliosSimulator) (d : Q) :
  simulate_ability s = Ok (d, s') ->
  chakram_stacks s' = spec_live_entries (time s') (active_chakrams s')
  /\ (forall n, simulate_ability (set_chakram_stacks s n) = Ok (d, s'))
  /\ (name (main_hand s') <> Crescendum ->
      active_chakrams s' = active_chakrams s
      /\ chakram_stacks s' = spec_live_entries (time s') (active_chakrams s))
  /\ (name (main_hand s') = Crescendum -> (1 <= chakram_stacks s')%Z).
Proof.
  intros H.
  destruct (simulate_ability_frame s s' d H) as (Ht & _ & _ & Hm & Hc & Hs).
  rewrite unexpired_live in Hs.
  split; [exact Hs |].
  split; [intros n; rewrite simulate_ability_ignores_stacks; exact H |].
  rewrite prepare_chakrams in Hc. rewrite Hm.
  split.
  - intros Hn.
    destruct (weapon_name_eqb _ Crescendum) eqn:E in Hc.
    + apply weapon_name_eqb_eq in E. contradiction.
    + rewrite Hs, Hc. split; reflexivity.
  - intros Hn. apply weapon_name_eqb_eq in Hn. rewrite Hn in Hc.
    rewrite Hs, Hc, <- Ht.
    apply (spec_live_entries_pos (time s') (time s' + 5.0));
      [lra | apply fset_add_holds].
Qed.

Lemma ability_cast_overwrites_stacks_witness :
  let off := holding_chakrams (crescendum_off_hand 5) [2.0; 8.0] in
  let off' := state_after (simulate_ability off) off in
  let main := holding_chakrams (crescendum_in_hand 7) [2.0; 8.0] in
  let main' := state_after (simulate_ability main) main in
  (name (off_hand off) = Crescendum /\ chakram_stacks off = 5%Z
   /\ time off' == 3 /\ name (main_hand off') = Infernum
   /\ active_chakrams off' = [2.0; 8.0] /\ chakram_stacks off' = 1%Z)
  /\ (name (main_hand main) = Crescendum /\ chakram_stacks main = 7%Z
      /\ time main' == 4 /\ List.length (active_chakrams main') = 3%nat
      /\ chakram_stacks main' = 2%Z).
Proof.
  intros off off' main main'.
  assert (Hoff : simulate_ability off = Ok (amount_dealt (simulate_ability off), off'))
    by (vm_compute; reflexivity).
  assert (Hmain : simulate_ability main
                  = Ok (amount_dealt (simulate_ability main), main'))
    by (vm_compute; reflexivity).
  destruct (ability_cast_overwrites_stacks off off' _ Hoff) as (_ & _ & Hd & _).
  destruct (ability_cast_overwrites_stacks main main' _ Hmain) as (Hc & _).
  split.
  - split; [reflexivity |]. split; [reflexivity |].
    split; [vm_compute; reflexivity |]. split; [reflexivity |].
    destruct Hd as [Hset ->]; [vm_compute; discriminate |].
    split; [rewrite Hset; reflexivity |].
    vm_compute. reflexivity.
  - split; [reflexivity |]. split; [reflexivity |].
    split; [vm_compute; reflexivity |].
    split; [vm_compute; reflexivity |].
    rewrite Hc. vm_compute. reflexivity.
Defined.

(** ** The chakram set *)

Lemma filter_length_le {A} (p q : A -> bool) (l : list A) :
  (forall x, In x l -> p x = true -> q x = true) ->
  (List.length (filter p l) <= List.length (filter q l))%nat.
Proof.
  induction l as [| x l IH]; intros H; cbn; [lia |].
  assert (IH' : (List.length (filter p l) <= List.length (filter q l))%nat).
  { apply IH. intros y Hy. apply H. now right. }
  destruct (p x) eqn:Ep.
  - rewrite (H x (or_introl eq_refl) Ep). cbn. lia.
  - destruct (q x); cbn; lia.
Qed.

Lemma filter_none {A} (p : A -> bool) (l : list A) :
  (forall x, In x l -> p x = false) -> filter p l = [].
Proof.
  induction l as [| x l IH]; intros H; cbn; [reflexivity |].
  rewrite (H x (or_introl eq_refl)). apply IH.
  intros y Hy. apply H. now right.
Qed.

Lemma fset_add_in (x e : Q) (l : Py.fset) :
  In e (Py.fset_add x l) -> e = x \/ In e l.
Proof.
  unfold Py.fset_add. destruct (existsb _ l); cbn; intuition.
Qed.

Lemma fset_add_filter_length (p : Q -> bool) (x : Q) (l : Py.fset) :
  (List.length (filter p (Py.fset_add x l)) <= S (List.length (filter p l)))%nat.
Proof.
  unfold Py.fset_add. destruct (existsb _ l); cbn; [lia |].
  destruct (p x); cbn; lia.
Qed.

Lemma spaced_mono (c c' : Q) (l : Py.fset) :
  c <= c' -> spaced c l -> spaced c' l.
Proof.
  intros Hc [Hall Hcount]. split.
  - intros e He. specialize (Hall e He). lra.
  - eapply Nat.le_trans; [| exact Hcount].
    apply filter_length_le. intros e _ He.
    apply ltb_lt in He. apply ltb_lt. lra.
Qed.

(** ** The stack counter stays within 0..20 *)

Lemma rotate_weapon_invariant (s : ApheliosSimulator) :
  chakram_invariant s -> chakram_invariant (rotate_weapon s).
Proof.
  intros [Hb Hs]. split.
  - destruct (rotate_weapon_stacks s) as [-> | ->];
      [exact Hb | now apply decay_bounds].
  - rewrite rotate_weapon_chakrams.
    eapply spaced_mono; [apply rotate_weapon_cooldown_le | exact Hs].
Qed.

Lemma prepare_invariant (s : ApheliosSimulator) (amount : Z) :
  chakram_invariant s -> chakram_invariant (prepare s amount).
Proof.
  intros [Hb Hs]. split.
  - now apply prepare_stacks_bounds.
  - rewrite prepare_chakrams.
    eapply spaced_mono; [apply prepare_cooldown_le | exact Hs].
Qed.

Lemma simulate_attack_invariant (s s' : ApheliosSimulator) (d : Q) :
  chakram_invariant s -> simulate_attack s = Ok (d, s') ->
  chakram_invariant s'.
Proof.
  intros Hinv H.
  destruct (simulate_attack_frame s s' d H) as (Heng & Hmain & Hoff).
  destruct (prepare_invariant s 1 Hinv) as [Hb Hs].
  destruct Heng as (_ & _ & _ & _ & Hcd & _ & Hch & _).
  split.
  - destruct (weapon_name_eqb (name (main_hand (prepare s 1))) Crescendum) eqn:E.
    + apply weapon_name_eqb_eq in E. rewrite (Hmain E). lia.
    + assert (Hne : name (main_hand (prepare s 1)) <> Crescendum).
      { intros C. apply weapon_name_eqb_eq in C. congruence. }
      destruct (Hoff Hne) as [-> | [_ ->]]; lia.
  - rewrite Hcd, Hch. exact Hs.
Qed.

(** The cast itself: the guard of [calculate_dps] makes every older
    entry but one expired, so the recount is at most 2. *)
Lemma simulate_ability_invariant (s s' : ApheliosSimulator) (d : Q) :
  chakram_invariant s ->
  ABILITY_COOLDOWN <= time s - ability_cooldown s ->
  simulate_ability s = Ok (d, s') ->
  (0 <= chakram_stacks s' <= 2)%Z /\
  spaced (time s' + ABILITY_CAST_TIME) (active_chakrams s').
Proof.
  intros [_ [Hall Hcount]] Hguard H.
  destruct (simulate_ability_frame s s' d H) as (Ht & _ & _ & _ & Hc & Hs).
  assert (Hprep := prepare_time_le s 10).
  rewrite prepare_chakrams in Hc.
  unfold ABILITY_COOLDOWN in Hguard. unfold ABILITY_CAST_TIME.
  rewrite <- Ht in Hc, Hprep.
  set (now := time s') in *. set (old := active_chakrams s) in *.
  assert (Hold : forall e, In e old -> e <= now + 1.5).
  { intros e He. specialize (Hall e He). lra. }
  assert (Hlive :
    (List.length (filter (fun t => Py.ltb now t) old) <= 1)%nat).
  { eapply Nat.le_trans; [| exact Hcount].
    apply filter_length_le. intros e _ He.
    apply ltb_lt in He. apply ltb_lt. lra. }
  assert (Hgone : filter (fun e => Py.ltb (now + 0.5 + 1) e) old = []).
  { apply filter_none. intros e He. apply ltb_ge.
    specialize (Hold e He). lra. }
  split; [| split].
  - rewrite Hs. unfold unexpired. fold now. rewrite Hc.
    destruct (weapon_name_eqb _ Crescendum).
    + pose proof (fset_add_filter_length (fun t => Py.ltb now t) (now + 5.0) old).
      lia.
    + lia.
  - intros e He. rewrite Hc in He.
    destruct (weapon_name_eqb _ Crescendum).
    + apply fset_add_in in He. destruct He as [-> | He];
        [lra | specialize (Hold e He); lra].
    + specialize (Hold e He). lra.
  - rewrite Hc. destruct (weapon_name_eqb _ Crescendum).
    + pose proof (fset_add_filter_length
                    (fun e => Py.ltb (now + 0.5 + 1) e) (now + 5.0) old) as Hadd.
      rewrite Hgone in Hadd. exact Hadd.
    + rewrite Hgone. cbn. lia.
Qed.

Lemma run_step_invariant (s s' : ApheliosSimulator) :
  chakram_invariant s -> run_step s s' -> chakram_invariant s'.
Proof.
  intros Hinv Hstep. destruct Hstep as [s _ | s s' d dt H | s s' d Hg _ H].
  - now apply rotate_weapon_invariant.
  - apply (simulate_attack_invariant s s' d Hinv H).
  - destruct (simulate_ability_invariant s s' d Hinv Hg H) as [Hb Hs].
    split; [cbn; lia | exact Hs].
Qed.

Lemma run_invariant (s s' : ApheliosSimulator) :
  chakram_invariant s -> run s s' -> chakram_invariant s'.
Proof.
  intros Hinv Hrun. induction Hrun as [| s s' s'' _ IH Hstep]; [exact Hinv |].
  eapply run_step_invariant; [apply IH, Hinv | exact Hstep].
Qed.

Lemma fresh_invariant (s : ApheliosSimulator) :
  fresh s -> chakram_invariant s.
Proof.
  intros (Hs & Hc & _). unfold chakram_invariant, spaced.
  rewrite Hs, Hc. cbn. repeat split; try lia.
Qed.

(** ** Runs of [calculate_dps] *)

Lemma run_trans (a b c : ApheliosSimulator) : run a b -> run b c -> run a c.
Proof.
  intros Hab Hbc. induction Hbc as [| b c c' _ IH Hstep]; [exact Hab |].
  eapply run_then; [apply IH, Hab | exact Hstep].
Qed.

Lemma run_one (a b : ApheliosSimulator) : run_step a b -> run a b.
Proof. intros H. eapply run_then; [apply run_refl | exact H]. Qed.

(** One pass of the loop body is a short run. *)
Lemma dps_iteration_run (s s' : ApheliosSimulator) (dealt : Q) :
  dps_iteration s = Ok (dealt, s') -> run s s'.
Proof.
  intros H. unfold dps_iteration in H. cbv zeta in H.
  set (s0 := if (weapon_ammo s (name (main_hand s)) <=? 0)%Z
             then rotate_weapon s else s) in H.
  assert (R0 : run s s0).
  { unfold s0. destruct (Z.leb_spec (weapon_ammo s (name (main_hand s))) 0).
    - apply run_one, step_rotate. assumption.
    - apply run_refl. }
  clearbody s0.
  destruct (Qeq_bool _ 0); [discriminate H |].
  destruct (simulate_attack s0) as [[a s1] |] eqn:Ea; cbn [Py.bind] in H;
    [| discriminate H].
  match type of H with
  | context [set_time s1 ?t] =>
      set (s2 := set_time s1 t) in H;
      assert (R2 : run s s2)
        by (eapply run_trans;
            [exact R0 | apply run_one; unfold s2; eapply step_attack; exact Ea])
  end.
  clearbody s2.
  destruct (Qle_bool _ _ && _)%bool eqn:G.
  - apply andb_true_iff in G. destruct G as [G1 G2].
    apply Qle_bool_iff in G1. apply Z.leb_le in G2.
    destruct (simulate_ability s2) as [[b s3] |] eqn:Eb; cbn [Py.bind] in H;
      [| discriminate H].
    injection H as _ <-.
    eapply run_trans; [exact R2 |].
    apply run_one. exact (step_ability s2 s3 b G1 G2 Eb).
  - injection H as _ <-. exact R2.
Qed.

Lemma dps_loop_run (fuel : nat) (duration : Q) :
  forall (s s' : ApheliosSimulator) (total result : Q),
    dps_loop fuel duration s total = Some (Ok (result, s')) -> run s s'.
Proof.
  induction fuel as [| fuel IH]; intros s s' total result H; cbn in H.
  - destruct (Py.ltb (time s) duration); [discriminate H |].
    injection H as _ <-. apply run_refl.
  - destruct (Py.ltb (time s) duration).
    + destruct (dps_iteration s) as [[d s1] |] eqn:E; [| discriminate H].
      eapply run_trans; [eapply dps_iteration_run; exact E |].
      eapply IH. exact H.
    + injection H as _ <-. apply run_refl.
Qed.

(** Every state a call of [calculate_dps] ends in is reached by the run
    steps. *)
Lemma calculate_dps_run (fuel : nat) (duration result : Q)
  (s s' : ApheliosSimulator) :
  calculate_dps fuel s duration = Some (Ok (result, s')) -> run s s'.
Proof.
  intros H. unfold calculate_dps in H.
  destruct (dps_loop fuel duration s 0.0) as [[[total s1] |] |] eqn:E;
    try discriminate H.
  apply dps_loop_run in E.
  destruct (forallb _ WEAPON_NAMES) eqn:F; injection H as _ <-; [| exact E].
  eapply run_trans; [exact E |].
  apply run_one, step_rotate.
  rewrite forallb_forall in F.
  apply Z.leb_le, F.
  destruct (name (main_hand s1)); cbn; auto 6.
Qed.

Lemma init_fresh (self_id : nat) (h h' : heap) (cache cache' : lru_cache)
  (random_source : nat -> Q) (items : list string) (armor health : Q)
  (o : simulator_object) :
  __init__ self_id h cache random_source items armor health = (Ok o, h', cache') ->
  fresh (self_of h' o).
Proof.
  unfold __init__.
  destruct (calculate_base_stats_cached _ _ _ _ _) as [[[ref |] h1] cache1]; cbn;
    intros H; [| discriminate H].
  injection H as <- <- <-. unfold self_of, fresh, heap_get. cbn.
  destruct (nth_error h1 ref); cbn; repeat split; reflexivity.
Qed.

(** In particular a whole call of [calculate_dps] on a new object ends
    within the bounds. *)
Lemma calculate_dps_stacks_bounded (self_id : nat) (h h' : heap)
  (cache cache' : lru_cache) (random_source : nat -> Q) (items : list string)
  (armor health : Q) (fuel : nat) (duration result : Q)
  (o : simulator_object) (s : ApheliosSimulator) :
  __init__ self_id h cache random_source items armor health = (Ok o, h', cache') ->
  calculate_dps fuel (self_of h' o) duration = Some (Ok (result, s)) ->
  (0 <= chakram_stacks s <= 20)%Z.
Proof.
  intros Hinit Hrun.
  apply init_fresh, fresh_invariant in Hinit.
  apply calculate_dps_run in Hrun.
  apply (run_invariant _ s Hinit Hrun).
Qed.

(** C5.  From the state [__init__] builds, every state the operations
    of a simulation run reach (rotation, attack tick, ability cast, each
    under the guard [calculate_dps] puts on it) has its stack counter
    within 0..20. *)
Theorem chakram_stacks_bounded (s0 s : ApheliosSimulator) :
  fresh s0 -> run s0 s -> (0 <= chakram_stacks s <= 20)%Z.
Proof.
  intros Hfresh Hrun.
  apply (run_invariant s0 s (fresh_invariant s0 Hfresh) Hrun).
Qed.

Lemma chakram_stacks_bounded_witness :
  let s0 := simulator_for [] in
  let s1 := state_after (simulate_attack s0) s0 in
  let s2 := set_time s1 (time s1 + 4) in
  let s3 := state_after (simulate_ability s2) s0 in
  let s4 := set_time (set_ability_cooldown s3 (time s3 + ABILITY_CAST_TIME))
              (time s3 + ABILITY_CAST_TIME) in
  (0 <= chakram_stacks s4 <= 20)%Z.
Proof.
  intros s0 s1 s2 s3 s4.
  apply (chakram_stacks_bounded s0 s4).
  - unfold fresh. repeat split.
  - apply (run_then s0 s2 s4).
    + apply run_one.
      apply (step_attack s0 s1 (amount_dealt (simulate_attack s0)) 4).
      vm_compute. reflexivity.
    + apply (step_ability s2 s3 (amount_dealt (simulate_ability s2))).
      * vm_compute. discriminate.
      * vm_compute. discriminate.
      * vm_compute. reflexivity.
Defined.

(** ** Ammunition *)

Lemma run_step_ammo (s s' : ApheliosSimulator) (w : weapon_name) :
  run_step s s' -> (weapon_ammo s' w <= weapon_ammo s w)%Z.
Proof.
  intros Hstep. destruct Hstep as [s _ | s s' d dt H | s s' d _ _ H].
  - rewrite rotate_weapon_ammo. lia.
  - destruct (simulate_attack_frame s s' d H) as ((_ & _ & _ & _ & _ & Ha & _) & _).
    cbn. rewrite Ha. apply prepare_ammo. lia.
  - destruct (simulate_ability_frame s s' d H) as (_ & _ & Ha & _).
    cbn. rewrite Ha. apply prepare_ammo. lia.
Qed.

Lemma run_ammo (s s' : ApheliosSimulator) (w : weapon_name) :
  run s s' -> (weapon_ammo s' w <= weapon_ammo s w)%Z.
Proof.
  intros Hrun. induction Hrun as [| s s' s'' _ IH Hstep]; [lia |].
  pose proof (run_step_ammo s' s'' w Hstep). lia.
Qed.

(** C10, as the code has it.  Ammo starts at 50 per weapon; rotation
    leaves every counter as it is, and along a run (rotations, attack
    ticks, casts) no counter ever goes up. *)
Theorem ammo_never_increases (s0 s s' : ApheliosSimulator) (w : weapon_name) :
  fresh s0 -> run s0 s -> run s s' ->
  weapon_ammo s0 w = 50%Z
  /\ (weapon_ammo s' w <= weapon_ammo s w <= 50)%Z
  /\ weapon_ammo (rotate_weapon s') w = weapon_ammo s' w.
Proof.
  intros (_ & _ & Hfull & _) H0 H1.
  pose proof (run_ammo s0 s w H0). pose proof (run_ammo s s' w H1).
  rewrite (Hfull w) in *. rewrite rotate_weapon_ammo.
  repeat split; lia.
Qed.

Lemma ammo_never_increases_witness :
  let s0 := simulator_for [] in
  let a1 := state_after (simulate_attack s0) s0 in
  let s1 := set_time a1 (time a1 + 1) in
  let a2 := state_after (simulate_attack s1) s0 in
  let s2 := set_time a2 (time a2 + 1) in
  weapon_ammo s1 Calibrum = 49%Z /\ weapon_ammo s2 Calibrum = 48%Z
  /\ (weapon_ammo s2 Calibrum <= weapon_ammo s1 Calibrum <= 50)%Z.
Proof.
  intros s0 a1 s1 a2 s2.
  split; [reflexivity |]. split; [reflexivity |].
  apply (ammo_never_increases s0 s1 s2 Calibrum).
  - unfold fresh. repeat split.
  - apply run_one.
    apply (step_attack s0 a1 (amount_dealt (simulate_attack s0)) 1).
    vm_compute. reflexivity.
  - apply run_one.
    apply (step_attack s1 a2 (amount_dealt (simulate_attack s1)) 1).
    vm_compute. reflexivity.
Defined.

(** Against C10 as stated: the counters are not floored, and ticks are
    served from empty weapons.  After 250 attack ticks every counter is
    0; the 251st still returns damage and takes Severum to -1, its 51st
    round.  A plain [calculate_dps] run of 90 s ends with every counter
    at -6.  (Had a tick raised, the tables below would be the initial
    one, all 50.) *)
Lemma attacks_continue_past_fifty :
  let s0 := simulator_for [] in
  let s250 := ending (attacks 250 s0) s0 in
  ammo_table s0 = [50; 50; 50; 50; 50]%Z
  /\ ammo_table s250 = [0; 0; 0; 0; 0]%Z
  /\ ammo_table (state_after (simulate_attack s250) s0) = [0; -1; 0; 0; 0]%Z
  /\ 0 < amount_dealt (simulate_attack s250)
  /\ ammo_table (run_ending (calculate_dps 200 s0 90) s0) = [-6; -6; -6; -6; -6]%Z.
Proof.
  intros s0 s250.
  split; [vm_compute; reflexivity |].
  split; [vm_compute; reflexivity |].
  split; [vm_compute; reflexivity |].
  split; vm_compute; reflexivity.
Qed.

(** ** Degenerate durations *)

Lemma dps_loop_done (fuel : nat) (duration total : Q) (s : ApheliosSimulator) :
  duration <= time s ->
  dps_loop fuel duration s total = Some (Ok (total, s)).
Proof.
  intros H. apply ltb_ge in H.
  destruct fuel; cbn; rewrite H; reflexivity.
Qed.

(** C7.  On a simulator as [__init__] leaves it, [calculate_dps] with a
    zero or negative duration returns exactly 0, with any fuel: the loop
    is not entered, no division takes place and the object is left as
    it was. *)
Theorem calculate_dps_nonpositive_duration
  (fuel : nat) (s : ApheliosSimulator) (duration : Q) :
  fresh s -> duration <= 0 ->
  calculate_dps fuel s duration = Some (Ok (0, s)).
Proof.
  intros (_ & _ & Hfull & Htime) Hd.
  unfold calculate_dps.
  rewrite dps_loop_done by lra.
  assert (Hammo : forallb (fun w => (weapon_ammo s w <=? 0)%Z) WEAPON_NAMES = false).
  { cbn. rewrite (Hfull Calibrum). reflexivity. }
  rewrite Hammo.
  assert (Hpos : Py.ltb 0 duration = false) by now apply ltb_ge.
  rewrite Hpos. reflexivity.
Qed.

Lemma calculate_dps_nonpositive_duration_witness :
  calculate_dps 0 (simulator_for ["Infinity Edge"; "Kraken Slayer"]) 0
  = Some (Ok (0, simulator_for ["Infinity Edge"; "Kraken Slayer"]))
  /\ calculate_dps 7 (simulator_for []) (-5) = Some (Ok (0, simulator_for [])).
Proof.
  split; apply calculate_dps_nonpositive_duration;
    solve [unfold fresh; repeat split | lra].
Defined.

(** ** Binary64 checks *)

(** The lethality factor is exactly 1.0 in binary64 too. *)
Lemma lethality_factor_binary64 :
  PrimFloat.eqb Binary64.lethality_factor 1%float = true.
Proof. vm_compute. reflexivity. Qed.

(** For the stack counts 0..20, [int(n * 0.7)] on binary64 is the
    integer [Py.int] gives on the rationals. *)
Lemma decay_binary64 :
  forallb (fun p => Binary64.truncates_to (Binary64.decay_product (fst p)) (snd p))
    Binary64.decay_table = true
  /\ map (fun n => Py.int (inject_Z n * 0.7))
       [0; 1; 2; 3; 4; 5; 6; 7; 8; 9; 10; 11; 12; 13; 14; 15; 16; 17; 18; 19; 20]%Z
     = [0; 0; 1; 2; 2; 3; 4; 4; 5; 6; 7; 7; 8; 9; 9; 10; 11; 11; 12; 13; 14]%Z.
Proof. split; vm_compute; reflexivity. Qed.

(** On binary64 the accumulated AD of one item set depends on the order
    of the items (Muramana, Axiom Arc, Black Cleaver, Bloodthirster,
    Trinity Force). *)
Lemma accumulate_order_binary64 :
  PrimFloat.eqb
    (Binary64.accumulate [49.29; 55.0; 40.0; 80.0; 36.0]%float)
    (Binary64.accumulate [55.0; 40.0; 80.0; 36.0; 49.29]%float) = false.
Proof. vm_compute. reflexivity. Qed.

(** ** Stat aggregation *)

Lemma get_set_same {V} (d : Py.dict V) (k : string) (v : V) :
  Py.get (Py.set d k v) k = Some v.
Proof.
  induction d as [| [k' v'] d IH]; cbn.
  - rewrite String.eqb_refl. reflexivity.
  - destruct (String.eqb k k') eqn:E; cbn; rewrite E; [reflexivity | exact IH].
Qed.

Lemma get_set_other {V} (d : Py.dict V) (k k' : string) (v : V) :
  String.eqb k' k = false -> Py.get (Py.set d k v) k' = Py.get d k'.
Proof.
  intros Hk. induction d as [| [k0 v0] d IH]; cbn.
  - rewrite Hk. reflexivity.
  - destruct (String.eqb k k0) eqn:E; cbn.
    + apply String.eqb_eq in E. subst k0. rewrite Hk. reflexivity.
    + rewrite IH. reflexivity.
Qed.

(** The [ArmorPen] spelling: the maximum is taken and then, for want of
    a [continue], the value is added on top of it. *)
Lemma aggregate_armor_pen (a : agg) (cur v : Q) :
  Py.get (agg_stats a) "ArmorPen" = Some cur ->
  exists a',
    aggregate_stat a ("ArmorPen", Py.VNum v) = Ok a'
    /\ Py.get (agg_stats a') "ArmorPen" = Some (Py.max cur v + v).
Proof.
  intros H. unfold aggregate_stat. cbn.
  unfold Py.item. rewrite H. cbn.
  eexists. split; [reflexivity |]. cbn.
  unfold Py.get_default. rewrite !get_set_same. reflexivity.
Qed.

(** The [Armor Pen] spelling: the maximum goes to [ArmorPen], the sum to
    a key of its own. *)
Lemma aggregate_armor_pen_spaced (a : agg) (cur v : Q) :
  Py.get (agg_stats a) "ArmorPen" = Some cur ->
  exists a',
    aggregate_stat a ("Armor Pen", Py.VNum v) = Ok a'
    /\ Py.get (agg_stats a') "ArmorPen" = Some (Py.max cur v).
Proof.
  intros H. unfold aggregate_stat. cbn.
  unfold Py.item. rewrite H. cbn.
  eexists. split; [reflexivity |]. cbn.
  rewrite get_set_other by reflexivity. apply get_set_same.
Qed.

(** C3 (the code departs from the claim).  Two items that grant 0.15
    under the [ArmorPen] spelling aggregate to 0.45, not 0.15; under the
    [Armor Pen] spelling the snapshot's [ArmorPen] is 0.15.  In the
    catalog, Black Cleaver alone (0.30) yields 0.60. *)
Theorem armor_pen_is_also_summed :
  stat_of (_calculate_base_stats (two_pen_items "ArmorPen") ["First"; "Second"])
    "ArmorPen" = Some (Qred 0.45)
  /\ stat_of (_calculate_base_stats (two_pen_items "Armor Pen") ["First"; "Second"])
       "ArmorPen" = Some (Qred 0.15)
  /\ stat_of (_calculate_base_stats (lookup_items ["Black Cleaver"]) ["Black Cleaver"])
       "ArmorPen" = Some (Qred 0.60).
Proof.
  repeat split; vm_compute; reflexivity.
Qed.

(** ** The cache *)

Lemma cache_key_eqb_eq (a b : cache_key) : cache_key_eqb a b = true <-> a = b.
Proof.
  destruct a as [n l], b as [m l']. unfold cache_key_eqb. cbn.
  rewrite !andb_true_iff, !Nat.eqb_eq.
  split.
  - intros (-> & Hlen & Hall). f_equal.
    revert l' Hlen Hall. induction l as [| x l IH]; intros [| y l'] Hlen Hall;
      cbn in *; try discriminate; [reflexivity |].
    apply andb_true_iff in Hall. destruct Hall as [Hxy Hall].
    apply String.eqb_eq in Hxy. subst y. f_equal.
    apply IH; [congruence | exact Hall].
  - intros E. injection E as -> <-. repeat split.
    induction l as [| x l IH]; cbn; [reflexivity |].
    rewrite String.eqb_refl. exact IH.
Qed.

Lemma cache_key_eqb_refl (k : cache_key) : cache_key_eqb k k = true.
Proof. now apply cache_key_eqb_eq. Qed.

Lemma cache_key_eqb_sym (a b : cache_key) :
  cache_key_eqb a b = cache_key_eqb b a.
Proof.
  destruct (cache_key_eqb a b) eqn:E, (cache_key_eqb b a) eqn:E';
    try reflexivity.
  - apply cache_key_eqb_eq in E. subst b. rewrite cache_key_eqb_refl in E'.
    discriminate E'.
  - apply cache_key_eqb_eq in E'. subst b. rewrite cache_key_eqb_refl in E.
    discriminate E.
Qed.

Lemma cache_find_remove (k k' : cache_key) (l : list (cache_key * dict_ref)) :
  cache_find k l = None -> cache_find k (cache_remove k' l) = None.
Proof.
  induction l as [| [k0 v] l IH]; intros H; cbn in *; [reflexivity |].
  destruct (cache_key_eqb k k0) eqn:E; [discriminate H |].
  destruct (negb (cache_key_eqb k' k0)); cbn; [rewrite E |]; now apply IH.
Qed.

(** Where a key sits: behind a prefix that does not hold it. *)
Lemma cache_find_behind (k : cache_key) (r : dict_ref)
  (pre post : list (cache_key * dict_ref)) :
  cache_find k pre = None ->
  cache_find k (pre ++ (k, r) :: post) = Some r.
Proof.
  induction pre as [| [k0 v] pre IH]; cbn; intros H.
  - rewrite cache_key_eqb_refl. reflexivity.
  - destruct (cache_key_eqb k k0); [discriminate H | now apply IH].
Qed.

Lemma cache_find_split (k : cache_key) (r : dict_ref)
  (l : list (cache_key * dict_ref)) :
  cache_find k l = Some r ->
  exists pre post, l = (pre ++ (k, r) :: post)%list /\ cache_find k pre = None.
Proof.
  induction l as [| [k0 v] l IH]; cbn; intros H; [discriminate H |].
  destruct (cache_key_eqb k k0) eqn:E.
  - injection H as ->. apply cache_key_eqb_eq in E. subst k0.
    exists [], l. split; reflexivity.
  - destruct (IH H) as (pre & post & -> & Hpre).
    exists ((k0, v) :: pre), post. split; [reflexivity |].
    cbn. rewrite E. exact Hpre.
Qed.

Lemma cache_remove_behind (k k' : cache_key) (r : dict_ref)
  (pre post : list (cache_key * dict_ref)) :
  cache_key_eqb k' k = false ->
  cache_remove k' (pre ++ (k, r) :: post)
  = (cache_remove k' pre ++ (k, r) :: cache_remove k' post)%list.
Proof.
  intros H. unfold cache_remove. rewrite filter_app. cbn. rewrite H. reflexivity.
Qed.

Lemma cache_remove_length (k : cache_key) (l : list (cache_key * dict_ref)) :
  (List.length (cache_remove k l) <= List.length l)%nat.
Proof.
  unfold cache_remove. induction l as [| e l IH]; cbn; [lia |].
  destruct (negb _); cbn; lia.
Qed.

(** A call that finds the key is a hit: the stored object comes back,
    no dict is built and none is touched. *)
Lemma cached_call_hit (h : heap) (c : lru_cache) (k : cache_key) (r : dict_ref)
  (f : unit -> result stats_dict) :
  cache_find k (entries c) = Some r ->
  cached_call h c k f
  = (Ok r, h, {| entries := (k, r) :: cache_remove k (entries c);
                 hits := S (hits c); misses := misses c |}).
Proof. unfold cached_call. intros ->. reflexivity. Qed.

(** After a call that returned, the key is at the front of the cache. *)
Lemma cached_call_stores (h h1 : heap) (c c1 : lru_cache) (k : cache_key)
  (f : unit -> result stats_dict) (r : dict_ref) :
  cached_call h c k f = (Ok r, h1, c1) ->
  exists rest, entries c1 = (k, r) :: rest.
Proof.
  unfold cached_call. intros H.
  destruct (cache_find k (entries c)) as [r0 |].
  - injection H as <- <- <-. eexists. reflexivity.
  - destruct (f tt) as [d | e]; [| discriminate H].
    injection H as <- <- <-. exists (firstn (Nat.pred maxsize) (entries c)).
    reflexivity.
Qed.

(** One call keeps a key that sits among the first [maxsize - 1]
    entries, and moves it back by one place at most. *)
Lemma cached_call_keeps (h h1 : heap) (c c1 : lru_cache) (k k' : cache_key)
  (r : dict_ref) (res : result dict_ref) (f : unit -> result stats_dict)
  (pre post : list (cache_key * dict_ref)) :
  entries c = (pre ++ (k, r) :: post)%list ->
  cache_find k pre = None ->
  (S (List.length pre) < maxsize)%nat ->
  cached_call h c k' f = (res, h1, c1) ->
  exists pre1 post1,
    entries c1 = (pre1 ++ (k, r) :: post1)%list
    /\ cache_find k pre1 = None
    /\ (List.length pre1 <= S (List.length pre))%nat.
Proof.
  intros Hent Hpre Hlen H. unfold cached_call in H.
  set (size := maxsize) in *. clearbody size.
  destruct (cache_key_eqb k' k) eqn:E.
  - apply cache_key_eqb_eq in E. subst k'.
    rewrite Hent, (cache_find_behind k r pre post Hpre) in H.
    injection H as _ _ <-. cbn.
    exists [], (cache_remove k (pre ++ (k, r) :: post)).
    split; [reflexivity |]. split; [reflexivity | cbn; lia].
  - assert (E' : cache_key_eqb k k' = false) by (rewrite cache_key_eqb_sym; exact E).
    destruct (cache_find k' (entries c)) as [r' |] eqn:F.
    + injection H as _ _ <-. cbn. rewrite Hent, (cache_remove_behind k k' r pre post E).
      exists ((k', r') :: cache_remove k' pre), (cache_remove k' post).
      split; [reflexivity |]. split.
      * cbn. rewrite E'. now apply cache_find_remove.
      * cbn. pose proof (cache_remove_length k' pre). unfold dict_ref in *. lia.
    + destruct (f tt) as [d | e].
      * apply (f_equal snd) in H. unfold heap_alloc in H. cbn [snd] in H.
        subst c1. cbn [entries]. rewrite Hent. unfold dict_ref in *.
        exists ((k', List.length h) :: pre),
               (firstn (size - S (S (List.length pre))) post).
        split; [| split; [cbn; rewrite E'; exact Hpre | cbn [List.length]; lia]].
        change ((k', List.length h) :: pre ++ (k, r) :: post)%list
          with (((k', List.length h) :: pre) ++ (k, r) :: post)%list.
        rewrite firstn_app.
        rewrite firstn_all2 by (cbn [List.length]; lia).
        f_equal.
        replace (size - List.length ((k', List.length h) :: pre))%nat
          with (S (size - S (S (List.length pre))))%nat
          by (cbn [List.length]; lia).
        reflexivity.
      * injection H as _ _ <-. cbn. exists pre, post. repeat split; [exact Hent | exact Hpre | lia].
Qed.

(** A key stored ahead of the last [n] places survives [n] calls,
    whatever their keys, and any updates in place. *)
Lemma after_events_keeps (k : cache_key) (r : dict_ref)
  (events : list cache_event) :
  forall (h h2 : heap) (c c2 : lru_cache) (pre post : list (cache_key * dict_ref)),
    entries c = (pre ++ (k, r) :: post)%list ->
    cache_find k pre = None ->
    (List.length pre + count_calls events < maxsize)%nat ->
    after_events h c events = (h2, c2) ->
    cache_find k (entries c2) = Some r.
Proof.
  induction events as [| [k' f | r' d] events IH];
    intros h h2 c c2 pre post Hent Hpre Hlen H; cbn in *.
  - injection H as _ <-. rewrite Hent. now apply cache_find_behind.
  - destruct (cached_call h c k' f) as [[res h1] c1] eqn:E.
    destruct (cached_call_keeps h h1 c c1 k k' r res f pre post Hent Hpre)
      as (pre1 & post1 & Hent1 & Hpre1 & Hlen1); [lia | exact E |].
    apply (IH h1 h2 c1 c2 pre1 post1 Hent1 Hpre1); [lia | exact H].
  - apply (IH _ h2 c c2 pre post Hent Hpre Hlen H).
Qed.

(** ** The dict objects *)

Lemma heap_set_length (h : heap) (r : dict_ref) (d : stats_dict) :
  List.length (heap_set h r d) = List.length h.
Proof.
  revert r. induction h as [| x h IH]; intros [| r]; cbn; try reflexivity.
  now rewrite IH.
Qed.

Lemma heap_set_app (a b : heap) (r : dict_ref) (d : stats_dict) :
  exists b', heap_set (a ++ b)%list r d = (heap_set a r d ++ b')%list.
Proof.
  revert r. induction a as [| x a IH]; intros r; cbn.
  - exists (heap_set b r d). destruct r; reflexivity.
  - destruct r as [| r]; [exists b; reflexivity |].
    destruct (IH r) as [b' ->]. exists b'. reflexivity.
Qed.

Lemma heap_get_set_same (h : heap) (r : dict_ref) (d : stats_dict) :
  (r < List.length h)%nat -> heap_get (heap_set h r d) r = Some d.
Proof.
  unfold heap_get. revert r. induction h as [| x h IH]; intros [| r] H; cbn in *;
    try lia; [reflexivity |].
  apply IH. lia.
Qed.

Lemma cached_call_heap (h h1 : heap) (c c1 : lru_cache) (k : cache_key)
  (f : unit -> result stats_dict) (res : result dict_ref) :
  cached_call h c k f = (res, h1, c1) -> exists b, h1 = (h ++ b)%list.
Proof.
  unfold cached_call. intros H.
  destruct (cache_find k (entries c)).
  - injection H as _ <- _. exists []. now rewrite app_nil_r.
  - destruct (f tt) as [d | e]; injection H as _ <- _.
    + exists [d]. reflexivity.
    + exists []. now rewrite app_nil_r.
Qed.

(** Calls only add objects; the objects that exist change by the
    updates in place alone. *)
Lemma after_events_heap (events : list cache_event) :
  forall (h b h2 : heap) (c c2 : lru_cache),
    after_events (h ++ b)%list c events = (h2, c2) ->
    exists b2, h2 = (updates_only h events ++ b2)%list.
Proof.
  induction events as [| [k f | r d] events IH]; intros h b h2 c c2 H; cbn in *.
  - injection H as <- _. exists b. reflexivity.
  - destruct (cached_call (h ++ b)%list c k f) as [[res h1] c1] eqn:E.
    destruct (cached_call_heap _ _ _ _ _ _ _ E) as [b1 ->].
    rewrite <- app_assoc in H. apply (IH _ _ _ _ _ H).
  - destruct (heap_set_app h b r d) as [b' Hb]. rewrite Hb in H.
    apply (IH _ _ _ _ _ H).
Qed.

Lemma updates_only_length (events : list cache_event) (h : heap) :
  List.length (updates_only h events) = List.length h.
Proof.
  revert h. induction events as [| [k f | r d] events IH]; intros h; cbn;
    [reflexivity | apply IH |].
  rewrite IH. apply heap_set_length.
Qed.

(** What a method call does to the dict object, and what the object
    reads afterwards. *)
Lemma in_place_writes_back
  (method : ApheliosSimulator -> result (Q * ApheliosSimulator))
  (h h' : heap) (o o' : simulator_object) (x : Q) :
  (stats_ref o < List.length h)%nat ->
  in_place method h o = (Ok (x, o'), h') ->
  stats_ref o' = stats_ref o
  /\ h' = heap_set h (stats_ref o) (stats (fields o'))
  /\ heap_get h' (stats_ref o') = Some (stats (fields o'))
  /\ self_of h' o' = fields o'.
Proof.
  intros Hr H. unfold in_place in H.
  destruct (method (self_of h o)) as [[y s] | e]; [| discriminate H].
  injection H as <- <- <-. cbn [stats_ref fields].
  assert (G : heap_get (heap_set h (stats_ref o) (stats s)) (stats_ref o)
              = Some (stats s)) by now apply heap_get_set_same.
  repeat split; [exact G |].
  unfold self_of. cbn [stats_ref fields]. rewrite G. destruct s; reflexivity.
Qed.

(** C6, as the code has it.  The cache key is the pair of the calling
    object and the item tuple in the order given, and an entry is the
    dict object the aggregation returned.  Once a call has returned, and
    for as long as fewer than 128 calls of the method (under any keys)
    have followed, a call under the same key is a hit: the aggregation
    is not run, whatever item list the object holds by then, and the
    very same dict object comes back.  Calls never touch the dict
    objects that exist, so what that object holds is what the updates in
    place have made of it.  A call under a key that is not in the cache
    (the same items in another order, another object, an evicted key)
    is a miss: it runs the aggregation on the list it is given and, if
    that returns, stores a new dict object. *)
Theorem aggregation_cached_by_call_key
  (h h1 h2 : heap) (c c1 c2 : lru_cache) (self_id : nat)
  (item_stats : list item_dict) (items : list string) (r : dict_ref)
  (events : list cache_event) :
  calculate_base_stats_cached h c self_id item_stats items = (Ok r, h1, c1) ->
  (count_calls events < maxsize)%nat ->
  after_events h1 c1 events = (h2, c2) ->
  (forall item_stats',
      exists c3,
        calculate_base_stats_cached h2 c2 self_id item_stats' items = (Ok r, h2, c3)
        /\ hits c3 = S (hits c2) /\ misses c3 = misses c2)
  /\ (forall r', (r' < List.length h1)%nat ->
                 heap_get h2 r' = heap_get (updates_only h1 events) r')
  /\ (forall self_id' item_stats' items',
         cache_find (self_id', items') (entries c2) = None ->
         let '(res, h3, c3) :=
           calculate_base_stats_cached h2 c2 self_id' item_stats' items' in
         hits c3 = hits c2 /\ misses c3 = S (misses c2)
         /\ match _calculate_base_stats item_stats' items' with
            | Ok d => res = Ok (List.length h2) /\ h3 = (h2 ++ [d])%list
            | Raise e => res = Raise e /\ h3 = h2
            end).
Proof.
  intros H Hcount Hev. unfold calculate_base_stats_cached in *.
  destruct (cached_call_stores _ _ _ _ _ _ _ H) as (rest & Hent).
  assert (Hkept : cache_find (self_id, items) (entries c2) = Some r).
  { apply (after_events_keeps (self_id, items) r events h1 h2 c1 c2 [] rest);
      [exact Hent | reflexivity | cbn; exact Hcount | exact Hev]. }
  split; [| split].
  - intros item_stats'. rewrite (cached_call_hit _ _ _ _ _ Hkept).
    eexists. repeat split.
  - intros r' Hr'.
    rewrite <- (app_nil_r h1) in Hev.
    destruct (after_events_heap events _ _ _ _ _ Hev) as [b2 ->].
    unfold heap_get. apply nth_error_app1.
    rewrite updates_only_length. exact Hr'.
  - intros self_id' item_stats' items' Hnone.
    unfold cached_call. rewrite Hnone.
    destruct (_calculate_base_stats item_stats' items'); cbn; repeat split.
Qed.

Lemma aggregation_cached_by_call_key_witness :
  let first :=
    calculate_base_stats_cached [] empty_cache 1
      (lookup_items cleaver_first) cleaver_first in
  let h1 := snd (fst first) in
  let c1 := snd first in
  let events :=
    [ Call (2%nat, dominik_first)
        (fun _ => _calculate_base_stats (lookup_items dominik_first) dominik_first);
      Update 0%nat worn_stats ] in
  let h2 := fst (after_events h1 c1 events) in
  let c2 := snd (after_events h1 c1 events) in
  let again := calculate_base_stats_cached h2 c2 1 [] cleaver_first in
  let other :=
    calculate_base_stats_cached h2 c2 1 (lookup_items dominik_first) dominik_first in
  fst (fst again) = Ok 0%nat
  /\ hits (snd again) = 1%nat /\ misses (snd again) = 2%nat
  /\ stat_at h1 0%nat "LS" = Some 0
  /\ stat_at (snd (fst again)) 0%nat "LS" = option_map Qred (Py.get worn_stats "LS")
  /\ stat_at (snd (fst again)) 0%nat "LS" <> Some 0
  /\ fst (fst other) = Ok 2%nat
  /\ hits (snd other) = 0%nat /\ misses (snd other) = 3%nat.
Proof.
  intros first h1 c1 events h2 c2 again other.
  assert (H : first = (Ok 0%nat, h1, c1)) by (vm_compute; reflexivity).
  assert (Hev : after_events h1 c1 events = (h2, c2)) by (vm_compute; reflexivity).
  destruct (aggregation_cached_by_call_key [] h1 h2 empty_cache c1 c2 1
              (lookup_items cleaver_first) cleaver_first 0%nat events H)
    as (Hhit & Hheap & Hmiss);
    [vm_compute; lia | exact Hev |].
  destruct (Hhit []) as (c3 & E3 & Hh & Hm).
  specialize (Hheap 0%nat). specialize (Hmiss 1%nat (lookup_items dominik_first) dominik_first).
  fold again in E3. fold other in Hmiss.
  destruct other as [[res h3] c4]. rewrite E3. cbn [fst snd].
  destruct Hmiss as (Hh4 & Hm4 & Hres); [vm_compute; reflexivity |].
  split; [reflexivity |].
  split; [rewrite Hh; vm_compute; reflexivity |].
  split; [rewrite Hm; vm_compute; reflexivity |].
  split; [vm_compute; reflexivity |].
  unfold stat_at. rewrite Hheap by (vm_compute; lia).
  split; [vm_compute; reflexivity |].
  split; [vm_compute; discriminate |].
  split; [| split; [rewrite Hh4; vm_compute; reflexivity
                   | rewrite Hm4; vm_compute; reflexivity]].
  destruct (_calculate_base_stats (lookup_items dominik_first) dominik_first)
    eqn:E; [| vm_compute in E; discriminate E].
  destruct Hres as [-> _]. vm_compute. reflexivity.
Defined.

(** Against C6 as stated: for two orders of one legal five-item set,
    built one after the other on the shared cache, the second
    construction is a miss (no hit, two misses) even on the same
    object identity, a second dict object is built, and the two
    snapshots differ: [ArmorPen] is 1.0 with Black Cleaver first and
    1.1 with Lord Dominik's Regards first. *)
Lemma aggregation_depends_on_order :
  Permutation cleaver_first dominik_first
  /\ is_valid_build cleaver_first = true
  /\ is_valid_build dominik_first = true
  /\ (let '(r1, h1, c1) :=
        __init__ 1 [] empty_cache (fun _ => 0) cleaver_first 250 3500 in
      let '(r2, h2, c2) :=
        __init__ 1 h1 c1 (fun _ => 0) dominik_first 250 3500 in
      hits c2 = 0%nat /\ misses c2 = 2%nat
      /\ match r1, r2 with
         | Ok o1, Ok o2 =>
             stats_ref o1 <> stats_ref o2
             /\ stat_at h2 (stats_ref o1) "ArmorPen" = Some 1
             /\ stat_at h2 (stats_ref o2) "ArmorPen" = Some 1.1
             /\ ~ same_stat "ArmorPen"
                    (stats (self_of h2 o1)) (stats (self_of h2 o2))
         | _, _ => False
         end).
Proof.
  split; [apply perm_swap |].
  split; [vm_compute; reflexivity |]. split; [vm_compute; reflexivity |].
  vm_compute. repeat split; try reflexivity; discriminate.
Qed.

(** ** The final ranking *)

Lemma pair_ltb_asym (a b : Q * Q) :
  pair_ltb a b = true -> pair_ltb b a = false.
Proof.
  unfold pair_ltb.
  destruct (Qeq_bool (fst a) (fst b)) eqn:E.
  - apply Qeq_bool_iff in E.
    assert (E' : Qeq_bool (fst b) (fst a) = true)
      by (apply Qeq_bool_iff; symmetry; exact E).
    rewrite E'. intros H. apply ltb_lt in H. apply ltb_ge. lra.
  - assert (E' : Qeq_bool (fst b) (fst a) = false).
    { destruct (Qeq_bool (fst b) (fst a)) eqn:E'; [| reflexivity].
      apply Qeq_bool_iff in E'. symmetry in E'. apply Qeq_bool_iff in E'.
      congruence. }
    rewrite E'. intros H. apply ltb_lt in H. apply ltb_ge. lra.
Qed.

Section Sorting.

Context {A : Type} (key : A -> Q * Q).

Local Notation before := (stands_before key).

Lemma insert_by_perm (x : A) (l : list A) :
  Permutation (x :: l) (insert_by key x l).
Proof.
  induction l as [| y l IH]; cbn; [apply Permutation_refl |].
  destruct (pair_ltb (key y) (key x)); [| apply Permutation_refl].
  eapply perm_trans; [apply perm_swap |]. now apply perm_skip.
Qed.

Lemma sorted_perm (l : list A) : Permutation l (sorted l key).
Proof.
  induction l as [| x l IH]; cbn; [apply perm_nil |].
  eapply perm_trans; [apply perm_skip, IH | apply insert_by_perm].
Qed.

Lemma insert_by_hd (x y : A) (l : list A) :
  before y x -> HdRel before y l -> HdRel before y (insert_by key x l).
Proof.
  intros Hyx Hl. destruct l as [| z l]; cbn; [now constructor |].
  destruct (pair_ltb (key z) (key x)); constructor;
    [now inversion Hl | exact Hyx].
Qed.

Lemma insert_by_sorted (x : A) (l : list A) :
  Sorted before l -> Sorted before (insert_by key x l).
Proof.
  induction l as [| y l IH]; intros Hl; cbn.
  - repeat constructor.
  - inversion Hl as [| ? ? Hs Hh]; subst.
    destruct (pair_ltb (key y) (key x)) eqn:E.
    + constructor; [now apply IH |].
      apply insert_by_hd; [| exact Hh].
      now apply pair_ltb_asym.
    + constructor; [exact Hl |]. constructor. exact E.
Qed.

Lemma sorted_Sorted (l : list A) : Sorted before (sorted l key).
Proof.
  induction l as [| x l IH]; cbn; [constructor |].
  now apply insert_by_sorted.
Qed.

Lemma Sorted_adjacent (l : list A) :
  Sorted before l ->
  forall i x y,
    nth_error l i = Some x -> nth_error l (S i) = Some y -> before x y.
Proof.
  induction 1 as [| z l Hs IH Hh]; intros i x y Hx Hy.
  - destruct i; discriminate Hx.
  - destruct i as [| i]; cbn in Hx, Hy.
    + injection Hx as <-. destruct l as [| w l]; [discriminate Hy |].
      cbn in Hy. injection Hy as <-. now inversion Hh.
    + exact (IH i x y Hx Hy).
Qed.

End Sorting.

Lemma rank_key_before (x y : ScoredResult) :
  pair_ltb (rank_key y) (rank_key x) = false -> ranked_before x y.
Proof.
  unfold pair_ltb, rank_key, ranked_before. cbn.
  destruct (Qeq_bool (- total_score y) (- total_score x)) eqn:E; intros H;
    apply ltb_ge in H.
  - apply Qeq_bool_iff in E. split; [lra | intros _; lra].
  - split; [lra |]. intros Heq.
    assert (E' : Qeq_bool (- total_score y) (- total_score x) = true)
      by (apply Qeq_bool_iff; lra).
    congruence.
Qed.

(** C8.  Whatever the workers return and in whatever order the chunks
    complete, the list the driver returns is ranked: each result has a
    score at least that of its successor and, where the two scores are
    equal, a DPS at least that of its successor. *)
Theorem optimize_results_ranked
  (catalog : Py.dict item_dict)
  (simulate_build : list string -> Q -> Q -> Q -> ScoredResult)
  (as_completed : list (list ScoredResult) -> list (list ScoredResult))
  (duration armor health : Q) (chunk_size : nat) (results : list ScoredResult) :
  optimize_over catalog simulate_build as_completed duration armor health chunk_size
  = Ok results ->
  forall i x y,
    nth_error results i = Some x -> nth_error results (S i) = Some y ->
    total_score y <= total_score x
    /\ (total_score x == total_score y -> dps y <= dps x).
Proof.
  unfold optimize_over. intros H i x y Hx Hy.
  destruct (chunkify _ chunk_size) as [chunks |]; cbn in H; [| discriminate H].
  injection H as <-.
  apply rank_key_before.
  exact (Sorted_adjacent rank_key _ (sorted_Sorted rank_key _) i x y Hx Hy).
Qed.

Lemma optimize_results_ranked_witness :
  let results :=
    ranking_of (optimize_over small_catalog length_scorer (@rev _) 900 200 3000 4) in
  let x := nth 1 results (length_scorer [] 0 0 0) in
  let y := nth 2 results (length_scorer [] 0 0 0) in
  List.length results = 6%nat
  /\ total_score y <= total_score x
  /\ (total_score x == total_score y -> dps y <= dps x).
Proof.
  intros results x y. split; [vm_compute; reflexivity |].
  assert (H : optimize_over small_catalog length_scorer (@rev _) 900 200 3000 4
              = Ok results) by (vm_compute; reflexivity).
  apply (optimize_results_ranked _ _ _ _ _ _ _ results H 1%nat x y).
  - vm_compute. reflexivity.
  - vm_compute. reflexivity.
Defined.

Lemma concat_perm {A} (l l' : list (list A)) :
  Permutation l l' -> Permutation (List.concat l) (List.concat l').
Proof.
  induction 1 as [| x l l' _ IH | x y l | l l' l'' _ IH1 _ IH2]; cbn.
  - apply perm_nil.
  - now apply Permutation_app_head.
  - rewrite !app_assoc. apply Permutation_app_tail, Permutation_app_comm.
  - eapply perm_trans; eassumption.
Qed.

(** The ranking neither drops nor invents a result. *)
Lemma optimize_results_complete
  (catalog : Py.dict item_dict)
  (simulate_build : list string -> Q -> Q -> Q -> ScoredResult)
  (as_completed : list (list ScoredResult) -> list (list ScoredResult))
  (duration armor health : Q) (chunk_size : nat) (results : list ScoredResult) :
  (forall l, Permutation l (as_completed l)) ->
  optimize_over catalog simulate_build as_completed duration armor health chunk_size
  = Ok results ->
  exists chunks,
    chunkify (filter is_valid_build (combinations (map fst catalog) 5)) chunk_size
    = Ok chunks
    /\ Permutation
         (List.concat
            (map (fun chunk =>
                    simulate_build_chunk simulate_build chunk duration armor health)
               chunks))
         results.
Proof.
  unfold optimize_over. intros Hperm H.
  destruct (chunkify _ chunk_size) as [chunks |]; cbn in H; [| discriminate H].
  injection H as <-. exists chunks. split; [reflexivity |].
  eapply perm_trans; [| apply sorted_perm].
  apply concat_perm, Hperm.
Qed.
